(** * lxc_vps_bot: ledger, instance registry, backend adapter and the
      provisioning commands, embedded from [lxc_vps_bot.py].

    Conventions of the embedding.
    - Python [int] is [Z]; the two SQLite tables are a finite map (the
      [users] table, keyed by its primary key) and the list of the rows
      of the [vps] table in the order in which an unordered SELECT visits
      them; the ids come from AUTOINCREMENT.  SQLite leaves that order
      open: where a new row comes in it is a choice of the store, given
      by [scan_index].
    - An INTEGER column holds a signed 64-bit value.  Binding a Python
      [int] outside that range raises [OverflowError]: this is modelled
      where the code binds a number it computed or was given
      ([remove_credits], [create_vps_record]).  User ids and row ids are
      taken inside the range.  [add_credits] is described for amounts and
      sums inside the range (past it SQLite stores a REAL); every theorem
      that says what a credit wrote carries the range as a hypothesis.
    - Python [str] is [string]; [lower] acts on the ASCII letters.
    - A coroutine is a computation over the [World]: it returns, raises,
      or never completes.  A command definition runs from its first to
      its last line; [cmd_buywc] is also given in the three pieces its
      [await]s cut it into, to run two requests interleaved.
    - The chat front end is reduced to the list of replies handed to
      [ctx.send], each reply keeping the values its f-string interpolates. *)

From Stdlib Require Import ZArith Ascii String List Bool Lia DecimalString Sorted.
From Stdlib Require Import Decimal DecimalZ Permutation.
From stdpp Require Import gmap strings list fin_maps sorting.
Import ListNotations.

Local Open Scope string_scope.
Local Open Scope list_scope.
Local Open Scope Z_scope.

(* ------------------------------------------------------------------ *)
(** ** Strings                                                          *)
(* ------------------------------------------------------------------ *)

Module Str.

Definition app (a b : string) : string := String.append a b.

(** [c.lower()] on one ASCII character. *)
Definition lower_ascii (c : ascii) : ascii :=
  let n := N_of_ascii c in
  if ((65 <=? n) && (n <=? 90))%N then ascii_of_N (n + 32) else c.

(** [s.lower()]. *)
Fixpoint lower (s : string) : string :=
  match s with
  | EmptyString => EmptyString
  | String c t => String (lower_ascii c) (lower t)
  end.

Fixpoint filter (f : ascii -> bool) (s : string) : string :=
  match s with
  | EmptyString => EmptyString
  | String c t => if f c then String c (filter f t) else filter f t
  end.

Fixpoint forallb (f : ascii -> bool) (s : string) : bool :=
  match s with
  | EmptyString => true
  | String c t => f c && forallb f t
  end.

Fixpoint startswith (p s : string) : bool :=
  match p, s with
  | EmptyString, _ => true
  | String a p', String b s' => Ascii.eqb a b && startswith p' s'
  | String _ _, EmptyString => false
  end.

(** [needle in hay] on Python strings. *)
Fixpoint contains (needle hay : string) : bool :=
  startswith needle hay ||
  match hay with
  | EmptyString => false
  | String _ t => contains needle t
  end.

(** [sep.join(parts)]. *)
Fixpoint join (sep : string) (parts : list string) : string :=
  match parts with
  | [] => EmptyString
  | [p] => p
  | p :: rest => app p (app sep (join sep rest))
  end.

(** [s.replace(old_char, new)] for a one-character [old]. *)
Fixpoint replace_char (old : ascii) (new : string) (s : string) : string :=
  match s with
  | EmptyString => EmptyString
  | String c t =>
      if Ascii.eqb c old then app new (replace_char old new t)
      else String c (replace_char old new t)
  end.

Definition is_lower (c : ascii) : bool :=
  let n := N_of_ascii c in ((97 <=? n) && (n <=? 122))%N.
Definition is_upper (c : ascii) : bool :=
  let n := N_of_ascii c in ((65 <=? n) && (n <=? 90))%N.
Definition is_digit (c : ascii) : bool :=
  let n := N_of_ascii c in ((48 <=? n) && (n <=? 57))%N.

(** [str(n)] for an integer. *)
Definition of_Z (n : Z) : string := NilZero.string_of_int (Z.to_int n).

(** [truthy s]: a Python string is true when it is not empty. *)
Definition truthy (s : string) : bool :=
  match s with EmptyString => false | String _ _ => true end.

(** [a or b] on strings. *)
Definition or (a b : string) : string := if truthy a then a else b.

End Str.

(** [NAME_RE] is the pattern [[^a-z0-9-]]: this is a character the
    pattern does NOT match, hence one that substitution by the empty
    string keeps. *)
Definition name_char_kept (c : ascii) : bool :=
  Str.is_lower c || Str.is_digit c || Ascii.eqb c "-"%char.

(** [NAME_RE.sub] with the empty replacement, applied to [s]. *)
Definition NAME_RE_sub_empty (s : string) : string :=
  Str.filter name_char_kept s.

(** Python's [shlex.quote]: the characters outside
    [[^\w@%+=:,./-]] (ASCII) need no quoting. *)
Definition shlex_safe_char (c : ascii) : bool :=
  Str.is_lower c || Str.is_upper c || Str.is_digit c ||
  existsb (Ascii.eqb c)
    ["_"; "@"; "%"; "+"; "="; ":"; ","; "."; "/"; "-"]%char.

Definition dquote : ascii := ascii_of_N 34.

(** The five characters quote, double quote, quote, double quote, quote
    by which [shlex.quote] replaces an embedded single quote. *)
Definition quote_escape : string :=
  String "'" (String dquote (String "'" (String dquote (String "'" EmptyString)))).

Definition shlex_quote (s : string) : string :=
  if negb (Str.truthy s) then "''"
  else if Str.forallb shlex_safe_char s then s
  else Str.app "'" (Str.app (Str.replace_char "'"%char quote_escape s) "'").

(* ------------------------------------------------------------------ *)
(** ** Data model                                                       *)
(* ------------------------------------------------------------------ *)

(** One entry of [plans.json]. *)
Record Plan := {
  plan_name : string;
  plan_ram_mb : Z;
  plan_cpu : Z;
  plan_disk_gb : Z;
  plan_price : Z
}.

(** One row of the [vps] table. *)
Record VpsRow := {
  row_id : Z;
  row_user_id : Z;
  row_container_name : string;
  row_plan : string;
  row_ram_mb : Z;
  row_cpu_cores : Z;
  row_arch : string;
  row_status : string;
  row_created_at : string
}.

(** A value of [datetime.utcnow()]. *)
Record DateTime := {
  dt_year : Z; dt_month : Z; dt_day : Z;
  dt_hour : Z; dt_minute : Z; dt_second : Z;
  dt_microsecond : Z
}.

(** [s] with zeros put in front until it has [width] characters; at
    most [n] zeros are added. *)
Fixpoint zero_pad (n width : nat) (s : string) : string :=
  match n with
  | O => s
  | S n' =>
      if (String.length s <? width)%nat then zero_pad n' width (String "0" s)
      else s
  end.

(** Zero-padded decimal of width [w], as [%02d] and the like print a
    non-negative number. *)
Definition digits (w : nat) (n : Z) : string := zero_pad w w (Str.of_Z n).

(** [d.strftime("%y%m%d%H%M%S")]. *)
Definition strftime_ymdHMS (d : DateTime) : string :=
  Str.app (digits 2 (dt_year d mod 100))
 (Str.app (digits 2 (dt_month d))
 (Str.app (digits 2 (dt_day d))
 (Str.app (digits 2 (dt_hour d))
 (Str.app (digits 2 (dt_minute d)) (digits 2 (dt_second d)))))).

(** [d.isoformat()]: the microseconds are printed only when not zero. *)
Definition isoformat (d : DateTime) : string :=
  Str.app (digits 4 (dt_year d))
 (Str.app "-" (Str.app (digits 2 (dt_month d))
 (Str.app "-" (Str.app (digits 2 (dt_day d))
 (Str.app "T" (Str.app (digits 2 (dt_hour d))
 (Str.app ":" (Str.app (digits 2 (dt_minute d))
 (Str.app ":" (Str.app (digits 2 (dt_second d))
   (if (dt_microsecond d =? 0)%Z then EmptyString
    else Str.app "." (digits 6 (dt_microsecond d))))))))))))).

(** What one run of the backend binary does. *)
Inductive ProcOutcome :=
| Exited (seconds : Z) (returncode : Z) (out err : string)
| SpawnFails (what : string)
| NeverExits.

(** What the command leaves behind outside the database. *)
Inductive Event :=
| Spawned (argv : list string)   (* asyncio.create_subprocess_exec on the argument list *)
| Slept.                         (* asyncio.sleep(0.2) *)

(** The replies of the commands; the constructor stands for the text
    of the f-string, its arguments for the interpolated values. *)
Inductive Reply :=
| UnknownPlan                                     (* buywc, line 207 *)
| NeedCredits (cost have : Z)                     (* buywc, line 211 *)
| CreatingContainer (name plan : string)          (* buywc, line 216 *)
| FailedToCreate (msg : string)                   (* buywc, line 219 *)
| ContainerCreated (name : string) (vps_id cost : Z) (* buywc, line 222 *)
| VpsNotFound                                     (* manage, line 237 *)
| NotYourVps                                      (* manage, line 238 *)
| Deleting (name : string)                        (* manage, line 242 *)
| FailedToDelete (msg : string)                   (* manage, line 244 *)
| VpsDeleted (vps_id : Z) (name : string)         (* manage, line 246 *)
| InvalidAction                                   (* manage, line 248 *)
| ActionFailed (msg : string)                     (* manage, line 250 *)
| InfoFor (name msg : string)                     (* manage, line 252 *)
| ActionExecuted (action name : string)           (* manage, line 253 *)
| NotAuthorized                                   (* admin commands *)
| VpsNotFoundForUser                              (* delete-vps, line 273 *)
| AdminDeleting (name : string) (user : Z) (reason : string) (* line 275 *)
| AdminFailed (msg : string)                      (* delete-vps, line 277 *)
| AdminDeleted (name : string)                    (* delete-vps, line 279 *)
| CreditsAdded (amount user : Z)                  (* adminc, line 285 *)
| AllCreditsRemoved (user : Z)                    (* adminrc, line 292 *)
| InvalidAmount                                   (* adminrc, line 296 *)
| CreditsRemoved (amount user : Z)                (* adminrc, line 298 *)
| BuyCreditsInfo                                  (* buyc, line 195 *)
| CreditsBalance (user amount : Z)                (* credits, line 200 *)
| NoVps                                           (* myvps, line 228 *)
| YourVps (lines : list (Z * string * string * Z * Z * string)) (* line 232 *)
| AdminCreating (name : string) (user ram cpu : Z)  (* lines 263, 323 *)
| AdminCreated (name : string) (user : Z)         (* create, line 267 *)
| PlanNotFound                                    (* lines 305, 316 *)
| PlanUpdated (key : string) (ram cpu disk : Z)   (* editplans, line 310 *)
| PlanGiven (key : string) (user : Z) (name : string). (* giveplan, line 327 *)

(** The exceptions the modelled lines can raise. *)
Inductive Exc :=
| OSError (what : string)
| OverflowError (what : string).

(** The mutable world of the process: both tables, AUTOINCREMENT's
    counter, the number of clock readings so far, the processes run and
    the replies sent. *)
Record World := {
  users : gmap Z Z;
  vps : list VpsRow;
  vps_seq : Z;
  clock_reads : nat;
  events : list Event;
  sent : list Reply
}.

(** What the module reads at start-up and from its host. *)
Record Env := {
  LXC_PATH : string;
  lxc_path_exists : bool;          (* os.path.exists(LXC_PATH) *)
  FAKE_IF_NO_LXC : bool;
  proc_version : option string;    (* content of /proc/version, if readable *)
  admin_role_id : option Z;        (* int(ADMIN_ROLE_ID), if it parses *)
  PLANS : gmap string Plan;
  utcnow : nat -> DateTime;        (* the n-th reading of the clock *)
  backend : list Event -> list string -> ProcOutcome;
  scan_index : list VpsRow -> nat  (* where an unordered scan of the table
                                      meets a row inserted now, counted
                                      from the front *)
}.

(** The part of a command's context the commands look at. *)
Record Ctx := {
  author_id : Z;
  author_administrator : bool;     (* guild_permissions.administrator *)
  author_roles : list Z
}.

(* ------------------------------------------------------------------ *)
(** ** Computations                                                     *)
(* ------------------------------------------------------------------ *)

Inductive Outcome (A : Type) :=
| Returns (a : A) (w : World)
| Raises (e : Exc) (w : World)
| Pending (w : World).             (* an await that never completes *)
Arguments Returns {A} a w.
Arguments Raises {A} e w.
Arguments Pending {A} w.

Definition M (A : Type) : Type := World -> Outcome A.

Definition ret {A} (a : A) : M A := fun w => Returns a w.

Definition bind {A B} (m : M A) (k : A -> M B) : M B :=
  fun w =>
    match m w with
    | Returns a w' => k a w'
    | Raises e w' => Raises e w'
    | Pending w' => Pending w'
    end.

Definition raise {A} (e : Exc) : M A := fun w => Raises e w.

Declare Scope cmd_scope.
Delimit Scope cmd_scope with cmd.
Notation "x <- m ;;; k" := (bind m (fun x => k))
  (at level 100, m at next level, right associativity) : cmd_scope.
Notation "m ;;; k" := (bind m (fun _ => k))
  (at level 100, right associativity) : cmd_scope.
Local Open Scope cmd_scope.

Definition final_world {A} (o : Outcome A) : World :=
  match o with
  | Returns _ w | Raises _ w | Pending w => w
  end.

Definition set_users (f : gmap Z Z -> gmap Z Z) (w : World) : World :=
  {| users := f (users w); vps := vps w; vps_seq := vps_seq w;
     clock_reads := clock_reads w; events := events w; sent := sent w |}.

Definition log_event (e : Event) (w : World) : World :=
  {| users := users w; vps := vps w; vps_seq := vps_seq w;
     clock_reads := clock_reads w; events := events w ++ [e]; sent := sent w |}.

(** One more reading of the clock. *)
Definition tick (w : World) : World :=
  {| users := users w; vps := vps w; vps_seq := vps_seq w;
     clock_reads := S (clock_reads w); events := events w; sent := sent w |}.

(** The signed 64-bit range of an INTEGER column. *)
Definition int64_min : Z := - 2 ^ 63.
Definition int64_max : Z := 2 ^ 63 - 1.

Definition fits_int64 (n : Z) : bool := (int64_min <=? n) && (n <=? int64_max).

(** The message of the [OverflowError] the sqlite3 module raises. *)
Definition int_too_large : Exc :=
  OverflowError "Python int too large to convert to SQLite INTEGER".

(** [l] with [r] put in at position [pos] (at the end when [pos] is
    past it). *)
Definition insert_at {A : Type} (pos : nat) (r : A) (l : list A) : list A :=
  firstn pos l ++ r :: skipn pos l.

(** The INSERT into [vps]: the row comes in at position [pos] of the
    scan and its id becomes the AUTOINCREMENT counter. *)
Definition insert_row (pos : nat) (r : VpsRow) (w : World) : World :=
  {| users := users w; vps := insert_at pos r (vps w); vps_seq := row_id r;
     clock_reads := clock_reads w; events := events w; sent := sent w |}.

(** The DELETE from [vps] by id. *)
Definition delete_rows (vps_id : Z) (w : World) : World :=
  {| users := users w;
     vps := List.filter (fun r => negb (row_id r =? vps_id)) (vps w);
     vps_seq := vps_seq w;
     clock_reads := clock_reads w; events := events w; sent := sent w |}.

Definition add_reply (r : Reply) (w : World) : World :=
  {| users := users w; vps := vps w; vps_seq := vps_seq w;
     clock_reads := clock_reads w; events := events w; sent := sent w ++ [r] |}.

(** [await ctx.send(r)]. *)
Definition send (r : Reply) : M unit :=
  fun w => Returns tt (add_reply r w).

(* ------------------------------------------------------------------ *)
(** ** Ledger: the [users] table                                        *)
(* ------------------------------------------------------------------ *)

(** [get_credits]: SELECT credits ... ; [r[0] if r else 0]. *)
Definition get_credits (user_id : Z) : M Z :=
  fun w =>
    match users w !! user_id with
    | Some credits => Returns credits w
    | None => Returns 0 w
    end.

(** [add_credits]: INSERT ... ON CONFLICT(user_id) DO UPDATE SET
    credits = credits + amount.  This is what the statement does for an
    amount and a sum inside the 64-bit range; an amount outside it is
    refused with [OverflowError] and a sum outside it is stored as a
    REAL, neither of which this definition describes. *)
Definition add_credits (user_id amount : Z) : M unit :=
  fun w =>
    Returns tt
      (set_users (fun u =>
         match u !! user_id with
         | Some credits => <[user_id := credits + amount]> u
         | None => <[user_id := amount]> u
         end) w).

(** [remove_credits]: no row, [False]; otherwise the row is set to
    [max(0, r[0] - amount)] and the result is [True].  The new value is
    bound to the UPDATE: outside the 64-bit range (a large negative
    amount) the binding raises and nothing is written. *)
Definition remove_credits (user_id amount : Z) : M bool :=
  fun w =>
    match users w !! user_id with
    | None => Returns false w
    | Some credits =>
        let new := Z.max 0 (credits - amount) in
        if fits_int64 new
        then Returns true (set_users (fun u => <[user_id := new]> u) w)
        else Raises int_too_large w
    end.

(** The statement of [cmd_adminrc] for the amount [all]:
    UPDATE users SET credits=0 WHERE user_id=?. *)
Definition zero_credits (user_id : Z) : M unit :=
  fun w =>
    Returns tt
      (set_users (fun u =>
         match u !! user_id with
         | Some _ => <[user_id := 0]> u
         | None => u
         end) w).

(* ------------------------------------------------------------------ *)
(** ** Instance registry: the [vps] table                               *)
(* ------------------------------------------------------------------ *)

Section WithEnv.

Context (env : Env).

(** [datetime.utcnow()]. *)
Definition read_clock : M DateTime :=
  fun w => Returns (utcnow env (clock_reads w)) (tick w).

(** [create_vps_record]: the row gets the next AUTOINCREMENT id, the
    status [running] and the current time; the id is returned.  The
    clock is read while the parameters are put together; [ram] and [cpu]
    are then bound to INTEGER columns, and a value outside the 64-bit
    range raises before anything is written. *)
Definition create_vps_record (user_id : Z) (container_name plan : string)
    (ram cpu : Z) (arch : string) : M Z :=
  now <- read_clock ;;;
  if fits_int64 ram && fits_int64 cpu then
    fun w =>
      let new_id := vps_seq w + 1 in
      let r := {| row_id := new_id; row_user_id := user_id;
                  row_container_name := container_name; row_plan := plan;
                  row_ram_mb := ram; row_cpu_cores := cpu; row_arch := arch;
                  row_status := "running"; row_created_at := isoformat now |} in
      Returns new_id (insert_row (scan_index env (vps w)) r w)
  else raise int_too_large.

(** [get_user_vps]: SELECT * FROM vps WHERE user_id = ?, without ORDER
    BY: the owner's rows in the order of the scan of the table. *)
Definition get_user_vps (user_id : Z) : M (list VpsRow) :=
  fun w => Returns (List.filter (fun r => (row_user_id r =? user_id)%Z) (vps w)) w.

(** [get_vps_by_id]: SELECT * FROM vps WHERE id = ?; [fetchone()]. *)
Definition get_vps_by_id (vps_id : Z) : M (option VpsRow) :=
  fun w => Returns (List.find (fun r => (row_id r =? vps_id)%Z) (vps w)) w.

(** [delete_vps_record]: DELETE FROM vps WHERE id = ?. *)
Definition delete_vps_record (vps_id : Z) : M unit :=
  fun w =>
    Returns tt (delete_rows vps_id w).

(* ------------------------------------------------------------------ *)
(** ** Backend adapter                                                  *)
(* ------------------------------------------------------------------ *)

(** The condition of [run_lxc_cmd]'s first [if]; the right operand of
    [or] opens /proc/version only when the left one is false. *)
Definition fake_mode : M bool :=
  if negb (lxc_path_exists env) && FAKE_IF_NO_LXC env then ret true
  else match proc_version env with
       | Some v => ret (Str.contains "microsoft" (Str.lower v))
       | None => raise (OSError "/proc/version")
       end.

(** [create_subprocess_exec] followed by [proc.communicate()]. *)
Definition spawn_and_communicate (args : list string) : M (Z * string * string) :=
  fun w =>
    match backend env (events w) args with
    | SpawnFails what => Raises (OSError what) w
    | NeverExits => Pending (log_event (Spawned args) w)
    | Exited _ rc out err => Returns (rc, out, err) (log_event (Spawned args) w)
    end.

(** [run_lxc_cmd(args, timeout=300)]: the body does not mention
    [timeout]. *)
Definition run_lxc_cmd (args : list string) (timeout : Z) : M (Z * string * string) :=
  fake <- fake_mode ;;;
  if fake then
    (fun w => Returns tt (log_event Slept w)) ;;;
    let cmd_str := Str.join " " (map shlex_quote args) in
    ret (0, Str.app "(fake) " cmd_str, EmptyString)
  else
    spawn_and_communicate args.

Definition default_timeout : Z := 300.

(** [create_container]; [ram_mb] and [cpu_cores] are [Optional[int]].
    An [image] or [profiles] of [None] is the empty string here: [or]
    replaces both by the default. *)
Definition create_container (name image profiles : string)
    (ram_mb cpu_cores : option Z) : M (bool * string) :=
  let image := Str.or image "images:ubuntu/22.04" in
  let profiles := Str.or profiles "default" in
  r <- run_lxc_cmd [LXC_PATH env; "launch"; image; name; "-p"; profiles]
         default_timeout ;;;
  let '(rc, out, err) := r in
  if negb (rc =? 0)%Z then ret (false, Str.or err out)
  else
    match ram_mb with
    | Some ram_mb =>
        let mem_bytes := ram_mb * 1024 * 1024 in
        _ <- run_lxc_cmd [LXC_PATH env; "config"; "set"; name;
                          "limits.memory"; Str.of_Z mem_bytes] default_timeout ;;;
        ret tt
    | None => ret tt
    end ;;;
    match cpu_cores with
    | Some cpu_cores =>
        _ <- run_lxc_cmd [LXC_PATH env; "config"; "set"; name;
                          "limits.cpu"; Str.of_Z cpu_cores] default_timeout ;;;
        ret tt
    | None => ret tt
    end ;;;
    ret (true, Str.or out "created").

(** [delete_container]. *)
Definition delete_container (name : string) : M (bool * string) :=
  _ <- run_lxc_cmd [LXC_PATH env; "stop"; name; "--force"] default_timeout ;;;
  r <- run_lxc_cmd [LXC_PATH env; "delete"; name] default_timeout ;;;
  let '(rc, out, err) := r in
  if negb (rc =? 0)%Z then ret (false, Str.or err out)
  else ret (true, "deleted").

Definition is_lifecycle_action (action : string) : bool :=
  existsb (String.eqb action) ["start"; "stop"; "restart"; "info"].

(** [action_container]. *)
Definition action_container (name action : string) : M (bool * string) :=
  if negb (is_lifecycle_action action) then ret (false, "invalid action")
  else
    r <- (if String.eqb action "info"
          then run_lxc_cmd [LXC_PATH env; "info"; name] default_timeout
          else run_lxc_cmd [LXC_PATH env; action; name] default_timeout) ;;;
    let '(rc, out, err) := r in
    if negb (rc =? 0)%Z then ret (false, Str.or err out)
    else ret (true, Str.or out "OK").

(* ------------------------------------------------------------------ *)
(** ** Commands                                                         *)
(* ------------------------------------------------------------------ *)

(** [is_admin_ctx]. *)
Definition is_admin_ctx (ctx : Ctx) : bool :=
  if author_administrator ctx then true
  else match admin_role_id env with
       | Some rid => existsb (fun role => (role =? rid)%Z) (author_roles ctx)
       | None => false
       end.

(** The container name of [cmd_buywc], lines 212 to 215. *)
Definition container_name_for (user_id : Z) (plan : string) (now : DateTime) : string :=
  let base := Str.app "user" (Str.app (Str.of_Z user_id) (Str.app "-" plan)) in
  let safe := NAME_RE_sub_empty (Str.lower base) in
  let suffix := strftime_ymdHMS now in
  Str.app safe (Str.app "-" suffix).

(** [cmd_buywc]: the charged create.  [PLANS] is read at lines 206, 208,
    217 and 221; no line of this command changes it. *)
Definition cmd_buywc (ctx : Ctx) (plan arch : string) : M unit :=
  let plan := Str.lower plan in
  let arch := Str.lower arch in
  match PLANS env !! plan with
  | None => send UnknownPlan
  | Some p =>
      let cost := plan_price p in
      user_credits <- get_credits (author_id ctx) ;;;
      if (user_credits <? cost)%Z then send (NeedCredits cost user_credits)
      else
        now <- read_clock ;;;
        let container_name := container_name_for (author_id ctx) plan now in
        send (CreatingContainer container_name plan) ;;;
        r <- create_container container_name "images:ubuntu/22.04" "default"
               (Some (plan_ram_mb p)) (Some (plan_cpu p)) ;;;
        let '(ok, msg) := r in
        if negb ok then send (FailedToCreate msg)
        else
          _ <- remove_credits (author_id ctx) cost ;;;
          vps_id <- create_vps_record (author_id ctx) container_name plan
                      (plan_ram_mb p) (plan_cpu p) arch ;;;
          send (ContainerCreated container_name vps_id cost)
  end.

(** [msg[:1900]]. *)
Definition truncate_1900 (msg : string) : string := String.substring 0 1900 msg.

(** [cmd_manage]. *)
Definition cmd_manage (ctx : Ctx) (action : string) (vps_id : Z) : M unit :=
  row <- get_vps_by_id vps_id ;;;
  match row with
  | None => send VpsNotFound
  | Some row =>
      if negb (row_user_id row =? author_id ctx)%Z && negb (is_admin_ctx ctx)
      then send NotYourVps
      else
        let name := row_container_name row in
        let action := Str.lower action in
        if String.eqb action "delete" then
          send (Deleting name) ;;;
          r <- delete_container name ;;;
          let '(ok, msg) := r in
          if negb ok then send (FailedToDelete msg)
          else
            delete_vps_record vps_id ;;;
            send (VpsDeleted vps_id name)
        else if negb (is_lifecycle_action action) then send InvalidAction
        else
          r <- action_container name action ;;;
          let '(ok, msg) := r in
          if negb ok then send (ActionFailed msg)
          else if String.eqb action "info" then send (InfoFor name (truncate_1900 msg))
          else send (ActionExecuted action name)
  end.

(** [cmd_delete_vps]; [user] is the id of the member named in the
    command. *)
Definition cmd_delete_vps (ctx : Ctx) (user : Z) (vps_number : Z)
    (reason : string) : M unit :=
  if negb (is_admin_ctx ctx) then send NotAuthorized
  else
    row <- get_vps_by_id vps_number ;;;
    match row with
    | None => send VpsNotFoundForUser
    | Some row =>
        if negb (row_user_id row =? user)%Z then send VpsNotFoundForUser
        else
          let name := row_container_name row in
          send (AdminDeleting name user reason) ;;;
          r <- delete_container name ;;;
          let '(ok, msg) := r in
          if negb ok then send (AdminFailed msg)
          else
            delete_vps_record vps_number ;;;
            send (AdminDeleted name)
    end.

(** [cmd_adminc]. *)
Definition cmd_adminc (ctx : Ctx) (user amount : Z) : M unit :=
  if negb (is_admin_ctx ctx) then send NotAuthorized
  else
    add_credits user amount ;;;
    send (CreditsAdded amount user).

(** The three ways [cmd_adminrc] reads its [amount] argument: the word
    [all], a text [int()] accepts, a text it rejects. *)
Inductive AmountArg :=
| AmountAll
| AmountInt (amt : Z)
| AmountInvalid.

(** [cmd_adminrc]. *)
Definition cmd_adminrc (ctx : Ctx) (user : Z) (amount : AmountArg) : M unit :=
  if negb (is_admin_ctx ctx) then send NotAuthorized
  else
    match amount with
    | AmountAll =>
        zero_credits user ;;;
        send (AllCreditsRemoved user)
    | AmountInvalid => send InvalidAmount
    | AmountInt amt =>
        _ <- remove_credits user amt ;;;
        send (CreditsRemoved amt user)
    end.

End WithEnv.


(** ** The ledger operations as data, for sequences of them *)

Inductive LedgerOp :=
| Credit (user amount : Z)       (* add_credits *)
| Debit (user amount : Z)        (* remove_credits *)
| Zero (user : Z).               (* the UPDATE of adminrc all *)

Definition run_ledger_op (op : LedgerOp) (w : World) : World :=
  match op with
  | Credit u a => final_world (add_credits u a w)
  | Debit u a => final_world (remove_credits u a w)
  | Zero u => final_world (zero_credits u w)
  end.

Definition run_ledger_ops (ops : list LedgerOp) (w : World) : World :=
  fold_left (fun w op => run_ledger_op op w) ops w.


(** Simulation mode: the backend binary is absent and simulation is
    enabled by configuration, or the kernel's version text names a
    foreign kernel. *)
Definition simulation_mode (env : Env) : bool :=
  (negb (lxc_path_exists env) && FAKE_IF_NO_LXC env) ||
  match proc_version env with
  | Some v => Str.contains "microsoft" (Str.lower v)
  | None => false
  end.

(** The argument text has no single quote. *)
Definition no_single_quote (s : string) : bool :=
  Str.forallb (fun c => negb (Ascii.eqb c "'"%char)) s.


(** The registry operations as data. *)
Inductive RegistryOp :=
| Insert (user_id : Z) (container_name plan : string) (ram cpu : Z) (arch : string)
| Delete (vps_id : Z).

Definition run_registry_op (env : Env) (op : RegistryOp) (w : World) : World :=
  match op with
  | Insert u n p r c a => final_world (create_vps_record env u n p r c a w)
  | Delete i => final_world (delete_vps_record i w)
  end.

Definition run_registry_ops (env : Env) (ops : list RegistryOp) (w : World) : World :=
  fold_left (fun w op => run_registry_op env op w) ops w.


(** The process at start-up on a fresh database. *)
Definition empty_world : World :=
  {| users := ∅; vps := []; vps_seq := 0; clock_reads := 0%nat;
     events := []; sent := [] |}.

(** The two worlds differ at most in the events: both tables, the
    AUTOINCREMENT counter, the clock and the replies are the same. *)
Definition only_events_differ (w w' : World) : Prop :=
  users w' = users w /\ vps w' = vps w /\ vps_seq w' = vps_seq w /\
  clock_reads w' = clock_reads w /\ sent w' = sent w.

(** A computation that touches nothing but the events. *)
Definition adapter_call {A : Type} (m : M A) : Prop :=
  forall w, only_events_differ w (final_world (m w)).

(** The argument lists [create_container] hands to [run_lxc_cmd]. *)
Definition launch_argv (env : Env) (name image profiles : string) : list string :=
  [LXC_PATH env; "launch"; Str.or image "images:ubuntu/22.04"; name; "-p";
   Str.or profiles "default"].

Definition memory_limit_argv (env : Env) (name : string) (ram_mb : Z) : list string :=
  [LXC_PATH env; "config"; "set"; name; "limits.memory";
   Str.of_Z (ram_mb * 1024 * 1024)].

Definition cpu_limit_argv (env : Env) (name : string) (cpu_cores : Z) : list string :=
  [LXC_PATH env; "config"; "set"; name; "limits.cpu"; Str.of_Z cpu_cores].

(** The host is not in simulation mode and its kernel text is readable. *)
Definition real_mode (env : Env) : Prop :=
  exists v, proc_version env = Some v /\ simulation_mode env = false.

(** What a delete flow leaves behind, given the world [w] the command
    started in, the world [w1] in which it called [delete_container]
    and the outcome [o] of the command: the ledger is as before; the
    row is gone exactly when the adapter returned [True]. *)
Definition delete_flow_outcome (env : Env) (vps_id : Z) (name : string)
    (w w1 : World) (o : Outcome unit)
    (failure_reply : string -> Reply) (success_reply : Reply) : Prop :=
  let w' := final_world o in
  users w' = users w /\
  match delete_container env name w1 with
  | Returns (true, _) w2 =>
      o = Returns tt (add_reply success_reply (delete_rows vps_id w2)) /\
      vps w' = List.filter (fun r => negb (row_id r =? vps_id)) (vps w) /\
      get_vps_by_id vps_id w' = Returns None w'
  | Returns (false, msg) w2 =>
      o = Returns tt (add_reply (failure_reply msg) w2) /\
      vps w' = vps w
  | Raises _ _ | Pending _ => vps w' = vps w
  end.

Definition is_success_reply (r : Reply) : bool :=
  match r with ContainerCreated _ _ _ => true | _ => false end.

(** The balance [get_credits] reports in a world. *)
Definition balance_of (w : World) (user_id : Z) : Z :=
  default 0 (users w !! user_id).


(** The world after the INSERT of [r] into the table of [w]. *)
Definition record_row (env : Env) (r : VpsRow) (w : World) : World :=
  insert_row (scan_index env (vps w)) r w.

(** No two rows share an id and none exceeds the AUTOINCREMENT
    counter. *)
Definition registry_ids_ok (w : World) : Prop :=
  NoDup (map row_id (vps w)) /\
  Forall (fun r => row_id r <= vps_seq w) (vps w).

(** The row [create_vps_record] inserts when it is called in [w]. *)
Definition new_row (env : Env) (user_id : Z) (container_name plan : string)
    (ram cpu : Z) (arch : string) (w : World) : VpsRow :=
  {| row_id := vps_seq w + 1; row_user_id := user_id;
     row_container_name := container_name; row_plan := plan;
     row_ram_mb := ram; row_cpu_cores := cpu; row_arch := arch;
     row_status := "running";
     row_created_at := isoformat (utcnow env (clock_reads w)) |}.

(** The world in which [cmd_buywc] calls [create_container], and the
    name it passes. *)
Definition buywc_name (env : Env) (ctx : Ctx) (plan : string) (w : World) : string :=
  container_name_for (author_id ctx) (Str.lower plan) (utcnow env (clock_reads w)).

Definition buywc_world_at_create (env : Env) (ctx : Ctx) (plan : string)
    (w : World) : World :=
  add_reply (CreatingContainer (buywc_name env ctx plan w) (Str.lower plan)) (tick w).

Definition buywc_create (env : Env) (ctx : Ctx) (plan : string) (p : Plan)
    (w : World) : Outcome (bool * string) :=
  create_container env (buywc_name env ctx plan w) "images:ubuntu/22.04" "default"
    (Some (plan_ram_mb p)) (Some (plan_cpu p)) (buywc_world_at_create env ctx plan w).

(** [n] sleeps in a row. *)
Definition sleeps (n : nat) (w : World) : World :=
  Nat.iter n (log_event Slept) w.

(** The number of [run_lxc_cmd] calls of a [create_container] that gets
    past the launch. *)
Definition create_calls (ram_mb cpu_cores : option Z) : nat :=
  (1 + match ram_mb with Some _ => 1 | None => 0 end
     + match cpu_cores with Some _ => 1 | None => 0 end)%nat.

(** The text a simulated call returns for an argument list. *)
Definition fake_output (args : list string) : string :=
  Str.app "(fake) " (Str.join " " (map shlex_quote args)).

(** What an uncharged create leaves behind, given the world [w] the
    command started in and its outcome [o]: the ledger is as before, and
    the registry has one more row, for [user], exactly when
    [create_container] returned [True] and the memory and the cores are
    inside the 64-bit range of their columns; outside it the INSERT
    raises after the container was created. *)
Definition uncharged_create_outcome (env : Env) (user : Z) (name plan : string)
    (ram cpu : Z) (image profiles : string) (success_reply : Reply)
    (w : World) (o : Outcome unit) : Prop :=
  let w1 := add_reply (AdminCreating name user ram cpu) (tick w) in
  let w' := final_world o in
  users w' = users w /\
  match create_container env name image profiles (Some ram) (Some cpu) w1 with
  | Returns (true, _) w2 =>
      if fits_int64 ram && fits_int64 cpu then
        let row := new_row env user name plan ram cpu "intel" w2 in
        o = Returns tt (add_reply success_reply (record_row env row (tick w2))) /\
        vps w' = insert_at (scan_index env (vps w)) row (vps w)
      else
        o = Raises int_too_large (tick w2) /\ vps w' = vps w
  | Returns (false, msg) w2 =>
      o = Returns tt (add_reply (AdminFailed msg) w2) /\ vps w' = vps w
  | Raises _ _ | Pending _ => vps w' = vps w
  end.

(** Every field [strftime_ymdHMS] prints with two digits has at most
    two digits, as the month, day, hour, minute and second of a real
    clock have. *)
Definition two_digit_fields (d : DateTime) : Prop :=
  0 <= dt_month d < 100 /\ 0 <= dt_day d < 100 /\ 0 <= dt_hour d < 100 /\
  0 <= dt_minute d < 100 /\ 0 <= dt_second d < 100.

(** The numbers 0 to 99. *)
Definition two_digit_numbers : list Z := map Z.of_nat (seq 0 100).

(** ** A concrete installation, for evaluating the commands *)

Definition sample_plans : gmap string Plan :=
  <["basic" := {| plan_name := "Basic"; plan_ram_mb := 512; plan_cpu := 1;
                  plan_disk_gb := 5; plan_price := 40 |}]>
  (<["free" := {| plan_name := "Trial"; plan_ram_mb := 128; plan_cpu := 1;
                  plan_disk_gb := 1; plan_price := 0 |}]> ∅).

Definition sample_clock (n : nat) : DateTime :=
  {| dt_year := 2024; dt_month := 5; dt_day := 17; dt_hour := 9;
     dt_minute := 30; dt_second := Z.of_nat n; dt_microsecond := 0 |}.

(** A Debian host with the binary installed. *)
Definition host_env (b : list Event -> list string -> ProcOutcome) : Env :=
  {| LXC_PATH := "/usr/bin/lxc"; lxc_path_exists := true;
     FAKE_IF_NO_LXC := false;
     proc_version := Some "Linux version 6.1.0-18-amd64 (Debian 6.1.76-1)";
     admin_role_id := Some 900; PLANS := sample_plans;
     utcnow := sample_clock; backend := b;
     scan_index := @List.length VpsRow |}.

(** A host whose kernel text names the foreign kernel. *)
Definition wsl_env : Env :=
  {| LXC_PATH := "/usr/bin/lxc"; lxc_path_exists := true;
     FAKE_IF_NO_LXC := false;
     proc_version := Some "Linux version 5.15.90.1-microsoft-standard-WSL2";
     admin_role_id := Some 900; PLANS := sample_plans;
     utcnow := sample_clock; backend := fun _ _ => NeverExits;
     scan_index := @List.length VpsRow |}.



(** A host without a readable /proc/version; the binary is installed
    or not, the simulation switch is on or off. *)
Definition no_procfs_env (installed fake_if_missing : bool) : Env :=
  {| LXC_PATH := "/usr/bin/lxc"; lxc_path_exists := installed;
     FAKE_IF_NO_LXC := fake_if_missing; proc_version := None;
     admin_role_id := None; PLANS := sample_plans;
     utcnow := sample_clock; backend := fun _ _ => SpawnFails "lxc";
     scan_index := @List.length VpsRow |}.


Definition has_word (word : string) (argv : list string) : bool :=
  existsb (String.eqb word) argv.

(** Every run exits with status 0 after two seconds. *)
Definition backend_ok : list Event -> list string -> ProcOutcome :=
  fun _ _ => Exited 2 0 "ok" EmptyString.

(** The launch is refused. *)
Definition backend_launch_fails : list Event -> list string -> ProcOutcome :=
  fun _ _ => Exited 1 1 EmptyString "Error: image not found".

(** The launch works, both [config set] runs exit with status 1. *)
Definition backend_limits_fail : list Event -> list string -> ProcOutcome :=
  fun _ argv =>
    if has_word "launch" argv then Exited 5 0 "Creating the instance" EmptyString
    else Exited 1 1 EmptyString "Error: unknown key".

(** The stop works, the delete is refused. *)
Definition backend_delete_fails : list Event -> list string -> ProcOutcome :=
  fun _ argv =>
    if has_word "delete" argv then Exited 1 1 EmptyString "Error: instance busy"
    else Exited 1 0 EmptyString EmptyString.

(** The forced stop is refused (the instance is not running), the
    delete works. *)
Definition backend_stop_fails : list Event -> list string -> ProcOutcome :=
  fun _ argv =>
    if has_word "stop" argv then Exited 1 1 EmptyString "Error: not running"
    else Exited 3 0 EmptyString EmptyString.

(** Every run takes more than a day and then exits with status 0. *)
Definition backend_slow : list Event -> list string -> ProcOutcome :=
  fun _ _ => Exited 100000 0 "done" EmptyString.

(** No run ever exits. *)
Definition backend_hangs : list Event -> list string -> ProcOutcome :=
  fun _ _ => NeverExits.

(** A ledger with one row: user [uid] holds [credits]. *)
Definition world_with_credits (uid credits : Z) : World :=
  final_world (add_credits uid credits empty_world).

(** A registry with one row, owned by user 7. *)
Definition world_with_vps : World :=
  final_world (create_vps_record (host_env backend_ok) 7 "user7-basic-240517093000"
                 "basic" 512 1 "intel" (world_with_credits 7 60)).



Definition member (uid : Z) : Ctx :=
  {| author_id := uid; author_administrator := false; author_roles := [] |}.

Definition admin (uid : Z) : Ctx :=
  {| author_id := uid; author_administrator := false; author_roles := [900] |}.

(* ------------------------------------------------------------------ *)
(** ** The other commands                                               *)
(* ------------------------------------------------------------------ *)

Section MoreCommands.

Context (env : Env).

(** [cmd_buyc]. *)
Definition cmd_buyc (ctx : Ctx) : M unit := send BuyCreditsInfo.

(** [cmd_credits]. *)
Definition cmd_credits (ctx : Ctx) : M unit :=
  amt <- get_credits (author_id ctx) ;;;
  send (CreditsBalance (author_id ctx) amt).

(** One line of [cmd_myvps]: the id, name, plan, memory, cores and
    status of a row. *)
Definition vps_line (r : VpsRow) : Z * string * string * Z * Z * string :=
  (row_id r, row_container_name r, row_plan r, row_ram_mb r, row_cpu_cores r,
   row_status r).

(** [cmd_myvps]. *)
Definition cmd_myvps (ctx : Ctx) : M unit :=
  rows <- get_user_vps (author_id ctx) ;;;
  match rows with
  | [] => send NoVps
  | _ :: _ => send (YourVps (map vps_line rows))
  end.

(** [cmd_create]: the admin's create, without plan and without charge;
    [user] is the id of the member named in the command. *)
Definition cmd_create (ctx : Ctx) (user ram_mb cpu_cores : Z) : M unit :=
  if negb (is_admin_ctx env ctx) then send NotAuthorized
  else
    now <- read_clock env ;;;
    let container_name := container_name_for user "custom" now in
    send (AdminCreating container_name user ram_mb cpu_cores) ;;;
    r <- create_container env container_name "images:ubuntu/22.04" "default"
           (Some ram_mb) (Some cpu_cores) ;;;
    let '(ok, msg) := r in
    if negb ok then send (AdminFailed msg)
    else
      _ <- create_vps_record env user container_name "custom" ram_mb cpu_cores
             "intel" ;;;
      send (AdminCreated container_name user).

(** [cmd_giveplan]: [create_container] is called without [image] and
    [profiles]. *)
Definition cmd_giveplan (ctx : Ctx) (user : Z) (plan_name : string) : M unit :=
  if negb (is_admin_ctx env ctx) then send NotAuthorized
  else
    let key := Str.lower plan_name in
    match PLANS env !! key with
    | None => send PlanNotFound
    | Some plan =>
        now <- read_clock env ;;;
        let container_name := container_name_for user key now in
        send (AdminCreating container_name user (plan_ram_mb plan) (plan_cpu plan)) ;;;
        r <- create_container env container_name EmptyString EmptyString
               (Some (plan_ram_mb plan)) (Some (plan_cpu plan)) ;;;
        let '(ok, msg) := r in
        if negb ok then send (AdminFailed msg)
        else
          _ <- create_vps_record env user container_name key (plan_ram_mb plan)
                 (plan_cpu plan) "intel" ;;;
          send (PlanGiven key user container_name)
    end.

End MoreCommands.

(* ------------------------------------------------------------------ *)
(** ** [cmd_buywc] in the pieces its awaits cut it into                  *)
(* ------------------------------------------------------------------ *)

(** Lines 204 to 216: the plan and balance checks, the name and the
    [creating] reply.  The coroutine is suspended at the await of line
    216; the result is the name and the plan when the request goes on. *)
Definition buywc_until_create (env : Env) (ctx : Ctx) (plan arch : string)
    : M (option (string * Plan)) :=
  let plan := Str.lower plan in
  match PLANS env !! plan with
  | None => send UnknownPlan ;;; ret None
  | Some p =>
      let cost := plan_price p in
      user_credits <- get_credits (author_id ctx) ;;;
      if (user_credits <? cost)%Z
      then send (NeedCredits cost user_credits) ;;; ret None
      else
        now <- read_clock env ;;;
        let container_name := container_name_for (author_id ctx) plan now in
        send (CreatingContainer container_name plan) ;;;
        ret (Some (container_name, p))
  end.

(** Line 217: the call of [create_container], at which the coroutine is
    suspended again. *)
Definition buywc_call_create (env : Env) (container_name : string) (p : Plan)
    : M (bool * string) :=
  create_container env container_name "images:ubuntu/22.04" "default"
    (Some (plan_ram_mb p)) (Some (plan_cpu p)).

(** Lines 218 to 222, with the result of [create_container]; [plan] and
    [arch] are already in lower case. *)
Definition buywc_from_create (env : Env) (ctx : Ctx) (plan arch : string)
    (container_name : string) (p : Plan) (r : bool * string) : M unit :=
  let '(ok, msg) := r in
  if negb ok then send (FailedToCreate msg)
  else
    _ <- remove_credits (author_id ctx) (plan_price p) ;;;
    vps_id <- create_vps_record env (author_id ctx) container_name plan
                (plan_ram_mb p) (plan_cpu p) arch ;;;
    send (ContainerCreated container_name vps_id (plan_price p)).

(** Lines 217 to 222 of a request that got past line 216. *)
Definition buywc_finish (env : Env) (ctx : Ctx) (plan arch : string)
    (c : option (string * Plan)) : M unit :=
  match c with
  | None => ret tt
  | Some (container_name, p) =>
      r <- buywc_call_create env container_name p ;;;
      buywc_from_create env ctx (Str.lower plan) (Str.lower arch) container_name p r
  end.

(** The three pieces in a row: [cmd_buywc] with nothing in between. *)
Definition buywc_in_steps (env : Env) (ctx : Ctx) (plan arch : string) : M unit :=
  c <- buywc_until_create env ctx plan arch ;;;
  buywc_finish env ctx plan arch c.


(** The memory and the cores of a plan fit the INTEGER columns. *)
Definition plan_fits (p : Plan) : bool :=
  fits_int64 (plan_ram_mb p) && fits_int64 (plan_cpu p).

(** The environment with another catalog. *)
Definition with_plans (plans : gmap string Plan) (env : Env) : Env :=
  {| LXC_PATH := LXC_PATH env; lxc_path_exists := lxc_path_exists env;
     FAKE_IF_NO_LXC := FAKE_IF_NO_LXC env; proc_version := proc_version env;
     admin_role_id := admin_role_id env; PLANS := plans;
     utcnow := utcnow env; backend := backend env;
     scan_index := scan_index env |}.

(** The three assignments of [cmd_editplans] on the entry of [key]. *)
Definition edit_plan (p : Plan) (ram_mb cpu disk_gb : Z) : Plan :=
  {| plan_name := plan_name p; plan_ram_mb := ram_mb; plan_cpu := cpu;
     plan_disk_gb := disk_gb; plan_price := plan_price p |}.

(** [cmd_editplans]: [PLANS] is a global the command changes in place,
    so the command gives back the environment the next command runs in.
    [save_plans] rewrites plans.json from [PLANS]; the file is not part
    of the world. *)
Definition cmd_editplans (env : Env) (ctx : Ctx) (plan_name : string)
    (ram_mb cpu disk_gb : Z) (w : World) : Env * Outcome unit :=
  if negb (is_admin_ctx env ctx) then (env, send NotAuthorized w)
  else
    let key := Str.lower plan_name in
    match PLANS env !! key with
    | None => (env, send PlanNotFound w)
    | Some p =>
        (with_plans (<[key := edit_plan p ram_mb cpu disk_gb]> (PLANS env)) env,
         send (PlanUpdated key ram_mb cpu disk_gb) w)
    end.

(** The user a ledger operation names. *)
Definition op_user (op : LedgerOp) : Z :=
  match op with Credit u _ | Debit u _ | Zero u => u end.


(** Both tables and the AUTOINCREMENT counter are the same. *)
Definition same_tables (w w' : World) : Prop :=
  users w' = users w /\ vps w' = vps w /\ vps_seq w' = vps_seq w.

(* ================================================================== *)
(** * Properties                                                        *)
(* ================================================================== *)

(** ** Ledger *)

(** The balance the query reports, as a function of the world. *)
Lemma get_credits_returns (u : Z) (w : World) :
  get_credits u w = Returns (default 0 (users w !! u)) w.
Proof. unfold get_credits. destruct (users w !! u); reflexivity. Qed.







(** C10. For a user without a row in the ledger, the balance query
    returns 0 and leaves the world as it was. *)
Theorem get_credits_absent_row (u : Z) (w : World) :
  users w !! u = None -> get_credits u w = Returns 0 w.
Proof. intros Hu. unfold get_credits. rewrite Hu. reflexivity. Qed.

Lemma get_credits_absent_row_witness :
  users empty_world !! 42 = None /\
  get_credits 42 empty_world = Returns 0 empty_world.
Proof.
  split; [reflexivity | apply (get_credits_absent_row 42 empty_world); reflexivity].
Defined.

(** Debits and zero operations never create a row: a user whom no
    credit names has none. *)
Lemma untouched_user_has_no_row (ops : list LedgerOp) (u : Z) :
  forall w,
  Forall (fun op => match op with Credit v _ => v <> u | _ => True end) ops ->
  users w !! u = None ->
  users (run_ledger_ops ops w) !! u = None.
Proof.
  induction ops as [|op ops IH]; intros w Hops Hu; simpl; [exact Hu|].
  apply Forall_cons in Hops as [Hop Hops]. apply IH; [exact Hops|].
  destruct op as [v a | v a | v]; simpl.
  - destruct (users w !! v); simpl; rewrite lookup_insert_ne; auto.
  - unfold remove_credits. destruct (users w !! v) eqn:Hv; simpl; [|exact Hu].
    destruct (fits_int64 (Z.max 0 (z - a))); simpl; [|exact Hu].
    rewrite lookup_insert_ne; [exact Hu|]. intros ->. congruence.
  - destruct (users w !! v) eqn:Hv; simpl; [|exact Hu].
    rewrite lookup_insert_ne; [exact Hu|]. intros ->. congruence.
Qed.

(** ** Instance registry *)




(** *** Where a new row comes in *)


Lemma insert_at_perm {A : Type} (pos : nat) (r : A) (l : list A) :
  Permutation (insert_at pos r l) (r :: l).
Proof.
  unfold insert_at. rewrite <- Permutation_middle.
  rewrite firstn_skipn. reflexivity.
Qed.

Lemma in_insert_at {A : Type} (pos : nat) (r x : A) (l : list A) :
  In x (insert_at pos r l) <-> x = r \/ In x l.
Proof.
  split; intros H.
  - apply (Permutation_in _ (insert_at_perm pos r l)) in H.
    destruct H as [H | H]; auto.
  - apply (Permutation_in _ (Permutation_sym (insert_at_perm pos r l))).
    destruct H as [H | H]; [left; auto | right; exact H].
Qed.


Lemma filter_none {A : Type} (f : A -> bool) (l : list A) :
  (forall x, In x l -> f x = false) -> List.filter f l = [].
Proof.
  induction l as [|x l IH]; simpl; intros H; [reflexivity|].
  rewrite (H x) by auto. apply IH. intros y Hy. apply H. auto.
Qed.

(** [create_vps_record] with numbers that fit the columns, and with
    one that does not. *)
Lemma create_vps_record_fits (env : Env) (u : Z) (n p : string) (r c : Z)
    (a : string) (w : World) :
  fits_int64 r && fits_int64 c = true ->
  create_vps_record env u n p r c a w
    = Returns (vps_seq w + 1) (record_row env (new_row env u n p r c a w) (tick w)).
Proof.
  intros H. unfold create_vps_record, bind, read_clock. rewrite H. reflexivity.
Qed.

Lemma create_vps_record_overflow (env : Env) (u : Z) (n p : string) (r c : Z)
    (a : string) (w : World) :
  fits_int64 r && fits_int64 c = false ->
  create_vps_record env u n p r c a w = Raises int_too_large (tick w).
Proof.
  intros H. unfold create_vps_record, bind, read_clock. rewrite H. reflexivity.
Qed.

(** What an insert does to the table: nothing, or one row more with the
    id after the counter. *)
Lemma run_insert_cases (env : Env) (u : Z) (n p : string) (r c : Z) (a : string)
    (w : World) :
  let w' := run_registry_op env (Insert u n p r c a) w in
  (vps w' = vps w /\ vps_seq w' = vps_seq w) \/
  (exists row, row_id row = vps_seq w + 1 /\ row_user_id row = u /\
               vps w' = insert_at (scan_index env (vps w)) row (vps w) /\
               vps_seq w' = vps_seq w + 1).
Proof.
  simpl. destruct (fits_int64 r && fits_int64 c) eqn:H.
  - rewrite (create_vps_record_fits env u n p r c a w H). right.
    exists (new_row env u n p r c a w). repeat split.
  - rewrite (create_vps_record_overflow env u n p r c a w H). left. split; reflexivity.
Qed.

Lemma registry_ids_ok_empty : registry_ids_ok empty_world.
Proof. split; simpl; constructor. Qed.

Lemma forall_filter_rows (P : VpsRow -> Prop) (f : VpsRow -> bool) (l : list VpsRow) :
  Forall P l -> Forall P (List.filter f l).
Proof.
  induction 1 as [|x l Hx Hl IH]; simpl; [constructor|].
  destruct (f x); auto.
Qed.

Lemma nodup_filter_ids (f : VpsRow -> bool) (l : list VpsRow) :
  NoDup (map row_id l) -> NoDup (map row_id (List.filter f l)).
Proof.
  induction l as [|x l IH]; simpl; intros H; [constructor|].
  apply NoDup_cons in H as [Hx Hl].
  destruct (f x); simpl; [|auto].
  apply NoDup_cons. split; [|auto].
  intros Hin. apply Hx. apply list_elem_of_In in Hin. apply list_elem_of_In.
  apply in_map_iff in Hin as (y & Hy & Hin). apply in_map_iff.
  exists y. split; [exact Hy|]. apply List.filter_In in Hin as [Hin _]. exact Hin.
Qed.

Lemma registry_ids_ok_step (env : Env) (op : RegistryOp) (w : World) :
  registry_ids_ok w -> registry_ids_ok (run_registry_op env op w).
Proof.
  intros [Hn Hb]. destruct op as [u n p r c a | i].
  - destruct (run_insert_cases env u n p r c a w)
      as [[Hv Hs] | (row & Hid & _ & Hv & Hs)]; unfold registry_ids_ok;
      rewrite Hv, Hs.
    + split; assumption.
    + split.
      * rewrite (Permutation_map row_id
                   (insert_at_perm (scan_index env (vps w)) row (vps w))).
        simpl. apply NoDup_cons. split; [|exact Hn].
        intros Hin. apply list_elem_of_In, in_map_iff in Hin as (x & Hx & Hin).
        rewrite Forall_forall in Hb. apply list_elem_of_In in Hin.
        specialize (Hb _ Hin). lia.
      * rewrite Forall_forall in Hb |- *. intros x Hx.
        apply list_elem_of_In, in_insert_at in Hx as [-> | Hx]; [lia|].
        apply list_elem_of_In in Hx. specialize (Hb _ Hx). lia.
  - split; simpl; [apply nodup_filter_ids, Hn | apply forall_filter_rows, Hb].
Qed.

Lemma registry_ids_ok_run (env : Env) (ops : list RegistryOp) :
  forall w, registry_ids_ok w -> registry_ids_ok (run_registry_ops env ops w).
Proof.
  induction ops as [|op ops IH]; intros w Hw; simpl; [exact Hw|].
  apply IH, registry_ids_ok_step, Hw.
Qed.






(** ** Strings *)

Lemma app_cons (x : ascii) (a b : string) :
  Str.app (String x a) b = String x (Str.app a b).
Proof. reflexivity. Qed.

Lemma app_empty_l (a : string) : Str.app EmptyString a = a.
Proof. reflexivity. Qed.

Lemma app_assoc_str (a b c : string) :
  Str.app (Str.app a b) c = Str.app a (Str.app b c).
Proof.
  induction a as [|x a IH]; [reflexivity|].
  rewrite !app_cons, IH. reflexivity.
Qed.

Lemma app_empty_r (a : string) : Str.app a EmptyString = a.
Proof.
  induction a as [|x a IH]; [reflexivity|].
  rewrite app_cons, IH. reflexivity.
Qed.

Lemma startswith_iff (p s : string) :
  Str.startswith p s = true <-> exists q, s = Str.app p q.
Proof.
  revert s. induction p as [|a p IH]; intros s; simpl.
  - split; [intros _; exists s; reflexivity | reflexivity].
  - destruct s as [|b s].
    + split; [discriminate | intros [q Hq]; discriminate].
    + rewrite andb_true_iff, IH. split.
      * intros [Hab [q ->]]. apply Ascii.eqb_eq in Hab as ->. exists q. reflexivity.
      * intros [q Hq]. injection Hq as -> ->. split; [apply Ascii.eqb_refl | eauto].
Qed.

Lemma contains_iff (n h : string) :
  Str.contains n h = true <-> exists p q, h = Str.app p (Str.app n q).
Proof.
  induction h as [|c h IH]; simpl.
  - rewrite orb_false_r, startswith_iff. split.
    + intros [q Hq]. exists EmptyString, q. exact Hq.
    + intros (p & q & Hpq). destruct p; [exists q; exact Hpq | discriminate].
  - rewrite orb_true_iff, IH, startswith_iff. split.
    + intros [[q Hq] | (p & q & Hpq)].
      * exists EmptyString, q. exact Hq.
      * exists (String c p), q. rewrite app_cons, <- Hpq. reflexivity.
    + intros (p & q & Hpq). destruct p as [|c' p].
      * left. exists q. exact Hpq.
      * right. rewrite app_cons in Hpq. injection Hpq as -> ->. eauto.
Qed.

Lemma contains_refl (s : string) : Str.contains s s = true.
Proof.
  apply contains_iff. exists EmptyString, EmptyString.
  simpl. symmetry. apply app_empty_r.
Qed.

Lemma contains_trans (a b c : string) :
  Str.contains a b = true -> Str.contains b c = true -> Str.contains a c = true.
Proof.
  rewrite !contains_iff. intros (p & q & ->) (p' & q' & ->).
  exists (Str.app p' p), (Str.app q q').
  rewrite !app_assoc_str. reflexivity.
Qed.

Lemma contains_join (sep a : string) (l : list string) :
  In a l -> Str.contains a (Str.join sep l) = true.
Proof.
  induction l as [|x l IH]; [intros []|].
  intros [-> | Hin].
  - destruct l as [|y l]; simpl Str.join; [apply contains_refl|].
    apply contains_iff. exists EmptyString. eexists. reflexivity.
  - destruct l as [|y l]; [destruct Hin|].
    change (Str.join sep (x :: y :: l))
      with (Str.app x (Str.app sep (Str.join sep (y :: l)))).
    specialize (IH Hin). apply contains_iff in IH as (p & q & ->).
    apply contains_iff. exists (Str.app x (Str.app sep p)), q.
    rewrite !app_assoc_str. reflexivity.
Qed.

Lemma replace_char_absent (old : ascii) (new s : string) :
  Str.forallb (fun c => negb (Ascii.eqb c old)) s = true ->
  Str.replace_char old new s = s.
Proof.
  induction s as [|c s IH]; simpl; [reflexivity|].
  rewrite andb_true_iff. intros [Hc Hs].
  apply negb_true_iff in Hc. rewrite Hc, IH; auto.
Qed.

(** An argument without a single quote survives [shlex.quote] verbatim,
    possibly between two quotes. *)
Lemma shlex_quote_contains (a : string) :
  no_single_quote a = true -> Str.contains a (shlex_quote a) = true.
Proof.
  intros Hq. unfold shlex_quote.
  destruct (negb (Str.truthy a)) eqn:Ht.
  - destruct a; [reflexivity | discriminate].
  - destruct (Str.forallb shlex_safe_char a); [apply contains_refl|].
    rewrite replace_char_absent by exact Hq.
    apply contains_iff. exists "'", "'". reflexivity.
Qed.

(** ** Backend adapter *)

Lemma simulation_mode_fake (env : Env) (w : World) :
  simulation_mode env = true -> fake_mode env w = Returns true w.
Proof.
  unfold simulation_mode, fake_mode.
  destruct (negb (lxc_path_exists env) && FAKE_IF_NO_LXC env); simpl; [reflexivity|].
  destruct (proc_version env); [|discriminate].
  intros ->. reflexivity.
Qed.

(** C8. In simulation mode every call of [run_lxc_cmd] returns exit code
    0, the output [(fake) ] followed by the requested command line and
    an empty error text; the output contains the command line, and
    verbatim every argument of it that has no single quote (so the
    operation name); the triple depends on the argument list alone, not
    on the world, the timeout or the backend; and no process is run:
    the only event is the short sleep. *)
Theorem run_lxc_cmd_simulated (env : Env) (args : list string) (timeout : Z) (w : World) :
  simulation_mode env = true ->
  let cmd_str := Str.join " " (map shlex_quote args) in
  let out := Str.app "(fake) " cmd_str in
  run_lxc_cmd env args timeout w = Returns (0, out, EmptyString) (log_event Slept w) /\
  Str.contains cmd_str out = true /\
  (forall a, In a args -> no_single_quote a = true -> Str.contains a out = true) /\
  (forall env' timeout' w',
     simulation_mode env' = true ->
     exists w'', run_lxc_cmd env' args timeout' w' = Returns (0, out, EmptyString) w'' /\
                 events w'' = events w' ++ [Slept]).
Proof.
  intros Hsim cmd_str out.
  assert (Hrun : forall e t v, simulation_mode e = true ->
            run_lxc_cmd e args t v = Returns (0, out, EmptyString) (log_event Slept v)).
  { intros e t v He. unfold run_lxc_cmd, bind.
    rewrite (simulation_mode_fake e v He). reflexivity. }
  assert (Hcmd : Str.contains cmd_str out = true).
  { apply contains_iff. exists "(fake) ", EmptyString.
    unfold out. f_equal. symmetry. apply app_empty_r. }
  split; [apply Hrun, Hsim|]. split; [exact Hcmd|]. split.
  - intros a Hin Hq.
    eapply contains_trans; [apply shlex_quote_contains, Hq|].
    eapply contains_trans; [|exact Hcmd].
    apply contains_join, in_map, Hin.
  - intros env' timeout' w' He. eexists. split; [apply Hrun, He | reflexivity].
Qed.

Lemma real_mode_not_fake (env : Env) (w : World) :
  real_mode env -> fake_mode env w = Returns false w.
Proof.
  intros (v & Hv & Hs). unfold simulation_mode, fake_mode in *.
  rewrite Hv in *.
  destruct (negb (lxc_path_exists env) && FAKE_IF_NO_LXC env); simpl in *;
    [discriminate|].
  rewrite Hs. reflexivity.
Qed.

Lemma run_lxc_cmd_real (env : Env) (args : list string) (timeout : Z) (w : World) :
  real_mode env ->
  run_lxc_cmd env args timeout w = spawn_and_communicate env args w.
Proof.
  intros Hr. unfold run_lxc_cmd, bind. rewrite (real_mode_not_fake env w Hr).
  reflexivity.
Qed.

Lemma run_lxc_cmd_exited (env : Env) (args : list string) (timeout : Z) (w : World)
    (t rc : Z) (out err : string) :
  real_mode env ->
  backend env (events w) args = Exited t rc out err ->
  run_lxc_cmd env args timeout w = Returns (rc, out, err) (log_event (Spawned args) w).
Proof.
  intros Hr Hb. rewrite run_lxc_cmd_real by exact Hr.
  unfold spawn_and_communicate. rewrite Hb. reflexivity.
Qed.

(** C6. The timeout of [run_lxc_cmd] is not enforced: a run of the
    binary that lasts 100000 seconds and then exits with status 0 is
    reported as a success under the timeout of 300, and a run that never
    exits leaves the call pending for ever. *)
Theorem run_lxc_cmd_timeout_not_enforced :
  run_lxc_cmd (host_env backend_slow) ["/usr/bin/lxc"; "delete"; "c1"] 300 empty_world
    = Returns (0, "done", EmptyString)
        (log_event (Spawned ["/usr/bin/lxc"; "delete"; "c1"]) empty_world) /\
  run_lxc_cmd (host_env backend_hangs) ["/usr/bin/lxc"; "delete"; "c1"] 300 empty_world
    = Pending (log_event (Spawned ["/usr/bin/lxc"; "delete"; "c1"]) empty_world) /\
  (forall env args timeout timeout' w,
     run_lxc_cmd env args timeout w = run_lxc_cmd env args timeout' w).
Proof.
  split; [vm_compute; reflexivity|]. split; [vm_compute; reflexivity|].
  intros. reflexivity.
Qed.

(** C7. Outside simulation mode, with the launch run exiting with
    status [rc]: when [rc] is not 0, [create_container] returns [False]
    with the launch's error text (or its output when that is empty) and
    the launch is the only process run; when [rc] is 0 and the two
    [config set] runs exit with whatever status, it returns [True], and
    the processes run are the launch, the memory limit with
    [ram_mb * 1024 * 1024] and the CPU limit, nothing else. *)
Theorem create_container_fails_iff_launch_fails
    (env : Env) (name image profiles : string) (ram_mb cpu_cores : Z) (w : World)
    (t rc : Z) (out err : string) :
  real_mode env ->
  backend env (events w) (launch_argv env name image profiles) = Exited t rc out err ->
  let launch := Spawned (launch_argv env name image profiles) in
  let mem := Spawned (memory_limit_argv env name ram_mb) in
  let cpu := Spawned (cpu_limit_argv env name cpu_cores) in
  let result := create_container env name image profiles (Some ram_mb) (Some cpu_cores) w in
  (rc <> 0 ->
     result = Returns (false, Str.or err out) (log_event launch w)) /\
  (rc = 0 ->
     forall t1 rc1 out1 err1 t2 rc2 out2 err2,
       backend env (events w ++ [launch]) (memory_limit_argv env name ram_mb)
         = Exited t1 rc1 out1 err1 ->
       backend env (events w ++ [launch; mem]) (cpu_limit_argv env name cpu_cores)
         = Exited t2 rc2 out2 err2 ->
       result = Returns (true, Str.or out "created")
                  (log_event cpu (log_event mem (log_event launch w)))).
Proof.
  intros Hr Hl launch mem cpu result. subst result.
  unfold create_container, bind.
  fold (launch_argv env name image profiles).
  rewrite (run_lxc_cmd_exited _ _ _ _ _ _ _ _ Hr Hl).
  split.
  - intros Hrc. apply Z.eqb_neq in Hrc. rewrite Hrc. reflexivity.
  - intros -> t1 rc1 out1 err1 t2 rc2 out2 err2 Hm Hc.
    change (negb (0 =? 0)) with false. cbv beta iota.
    fold (memory_limit_argv env name ram_mb).
    rewrite (run_lxc_cmd_exited env _ _ (log_event launch w) t1 rc1 out1 err1 Hr)
      by exact Hm.
    unfold ret. cbv beta iota. fold (cpu_limit_argv env name cpu_cores).
    rewrite (run_lxc_cmd_exited env _ _ (log_event mem (log_event launch w))
               t2 rc2 out2 err2 Hr).
    + reflexivity.
    + simpl events. rewrite <- app_assoc. exact Hc.
Qed.

Lemma create_container_fails_iff_launch_fails_witness :
  real_mode (host_env backend_limits_fail) /\
  create_container (host_env backend_limits_fail) "c1" EmptyString EmptyString
      (Some 512) (Some 1) empty_world
    = Returns (true, "Creating the instance")
        (log_event (Spawned ["/usr/bin/lxc"; "config"; "set"; "c1"; "limits.cpu"; "1"])
        (log_event (Spawned ["/usr/bin/lxc"; "config"; "set"; "c1"; "limits.memory";
                             "536870912"])
        (log_event (Spawned ["/usr/bin/lxc"; "launch"; "images:ubuntu/22.04"; "c1";
                             "-p"; "default"]) empty_world))).
Proof.
  assert (Hr : real_mode (host_env backend_limits_fail)).
  { eexists. split; reflexivity. }
  split; [exact Hr|].
  exact (proj2 (create_container_fails_iff_launch_fails
                  (host_env backend_limits_fail) "c1" EmptyString EmptyString 512 1
                  empty_world 5 0 "Creating the instance" EmptyString Hr eq_refl)
               eq_refl 1 1 EmptyString "Error: unknown key"
               1 1 EmptyString "Error: unknown key" eq_refl eq_refl).
Defined.

Lemma run_lxc_cmd_simulated_witness :
  simulation_mode wsl_env = true /\
  run_lxc_cmd wsl_env ["/usr/bin/lxc"; "launch"; "images:ubuntu/22.04"; "c1"] 300
      empty_world
    = Returns (0, "(fake) /usr/bin/lxc launch images:ubuntu/22.04 c1", EmptyString)
        (log_event Slept empty_world) /\
  Str.contains "launch" "(fake) /usr/bin/lxc launch images:ubuntu/22.04 c1" = true.
Proof.
  pose proof (run_lxc_cmd_simulated wsl_env
                ["/usr/bin/lxc"; "launch"; "images:ubuntu/22.04"; "c1"] 300
                empty_world eq_refl) as (Hrun & _ & Hargs & _).
  split; [reflexivity|]. split; [exact Hrun|].
  apply (Hargs "launch"); [simpl; auto | reflexivity].
Defined.

(** ** Commands *)

(** [cmd_buywc] when the balance is below the price. *)
Lemma buywc_insufficient_path
    (env : Env) (ctx : Ctx) (plan arch : string) (p : Plan) (w : World) :
  PLANS env !! Str.lower plan = Some p ->
  balance_of w (author_id ctx) < plan_price p ->
  cmd_buywc env ctx plan arch w
    = Returns tt (add_reply (NeedCredits (plan_price p) (balance_of w (author_id ctx))) w).
Proof.
  intros Hp Hlt. unfold cmd_buywc. rewrite Hp. unfold bind.
  rewrite get_credits_returns. fold (balance_of w (author_id ctx)).
  apply Z.ltb_lt in Hlt. rewrite Hlt. reflexivity.
Qed.

(** C3. A charged create whose requester holds less than the plan's
    price replies with the amounts needed and held, and does nothing
    else: the world afterwards is the world before with that one reply
    added, so no process was run, no sleep taken, and both tables and
    the AUTOINCREMENT counter are as before. *)
Theorem buywc_insufficient_credits
    (env : Env) (ctx : Ctx) (plan arch : string) (p : Plan) (w : World) (balance : Z) :
  PLANS env !! Str.lower plan = Some p ->
  get_credits (author_id ctx) w = Returns balance w ->
  balance < plan_price p ->
  cmd_buywc env ctx plan arch w
    = Returns tt (add_reply (NeedCredits (plan_price p) balance) w) /\
  let w' := final_world (cmd_buywc env ctx plan arch w) in
  users w' = users w /\ vps w' = vps w /\ vps_seq w' = vps_seq w /\
  events w' = events w.
Proof.
  intros Hp Hb Hlt.
  rewrite get_credits_returns in Hb. injection Hb as Hb.
  fold (balance_of w (author_id ctx)) in Hb. subst balance.
  rewrite (buywc_insufficient_path env ctx plan arch p w Hp Hlt).
  simpl. auto.
Qed.

Lemma buywc_insufficient_credits_witness :
  cmd_buywc (host_env backend_ok) (member 7) "Basic" "intel" (world_with_credits 7 30)
    = Returns tt (add_reply (NeedCredits 40 30) (world_with_credits 7 30)).
Proof.
  refine (proj1 (buywc_insufficient_credits (host_env backend_ok) (member 7)
                   "Basic" "intel"
                   {| plan_name := "Basic"; plan_ram_mb := 512; plan_cpu := 1;
                      plan_disk_gb := 5; plan_price := 40 |}
                   (world_with_credits 7 30) 30 _ _ _)).
  - vm_compute. reflexivity.
  - vm_compute. reflexivity.
  - simpl. lia.
Defined.

(** *** The adapter leaves the tables alone *)

Lemma only_events_differ_refl (w : World) : only_events_differ w w.
Proof. repeat split. Qed.

Lemma only_events_differ_trans (w1 w2 w3 : World) :
  only_events_differ w1 w2 -> only_events_differ w2 w3 -> only_events_differ w1 w3.
Proof.
  unfold only_events_differ.
  intros (-> & -> & -> & -> & ->) (-> & -> & -> & -> & ->). repeat split.
Qed.

Lemma adapter_ret {A : Type} (a : A) : adapter_call (ret a).
Proof. intros w. apply only_events_differ_refl. Qed.

Lemma adapter_raise {A : Type} (e : Exc) : adapter_call (@raise A e).
Proof. intros w. apply only_events_differ_refl. Qed.

Lemma adapter_bind {A B : Type} (m : M A) (k : A -> M B) :
  adapter_call m -> (forall a, adapter_call (k a)) -> adapter_call (bind m k).
Proof.
  intros Hm Hk w. unfold bind. specialize (Hm w).
  destruct (m w) as [a w1 | e w1 | w1]; simpl in *; [|exact Hm|exact Hm].
  eapply only_events_differ_trans; [exact Hm | apply Hk].
Qed.

Lemma adapter_log_event (e : Event) :
  adapter_call (fun w => Returns tt (log_event e w)).
Proof. intros w. repeat split. Qed.

Lemma adapter_fake_mode (env : Env) : adapter_call (fake_mode env).
Proof.
  unfold fake_mode.
  destruct (negb (lxc_path_exists env) && FAKE_IF_NO_LXC env);
    [apply adapter_ret|].
  destruct (proc_version env); [apply adapter_ret | apply adapter_raise].
Qed.

Lemma adapter_spawn (env : Env) (args : list string) :
  adapter_call (spawn_and_communicate env args).
Proof.
  intros w. unfold spawn_and_communicate.
  destruct (backend env (events w) args); repeat split.
Qed.

Lemma adapter_run_lxc_cmd (env : Env) (args : list string) (timeout : Z) :
  adapter_call (run_lxc_cmd env args timeout).
Proof.
  unfold run_lxc_cmd. apply adapter_bind; [apply adapter_fake_mode|].
  intros [|]; [|apply adapter_spawn].
  apply adapter_bind; [apply adapter_log_event | intros _; apply adapter_ret].
Qed.

Lemma adapter_create_container (env : Env) (name image profiles : string)
    (ram_mb cpu_cores : option Z) :
  adapter_call (create_container env name image profiles ram_mb cpu_cores).
Proof.
  unfold create_container.
  apply adapter_bind; [apply adapter_run_lxc_cmd|].
  intros [[rc out] err]. destruct (negb (rc =? 0)); [apply adapter_ret|].
  apply adapter_bind.
  - destruct ram_mb; [|apply adapter_ret].
    apply adapter_bind; [apply adapter_run_lxc_cmd | intros _; apply adapter_ret].
  - intros _. apply adapter_bind; [|intros _; apply adapter_ret].
    destruct cpu_cores; [|apply adapter_ret].
    apply adapter_bind; [apply adapter_run_lxc_cmd | intros _; apply adapter_ret].
Qed.

Lemma adapter_delete_container (env : Env) (name : string) :
  adapter_call (delete_container env name).
Proof.
  unfold delete_container.
  apply adapter_bind; [apply adapter_run_lxc_cmd|]. intros _.
  apply adapter_bind; [apply adapter_run_lxc_cmd|].
  intros [[rc out] err]. destruct (negb (rc =? 0)); apply adapter_ret.
Qed.

(** Outside simulation mode [delete_container] reports the exit status
    of the delete run alone; the status of the forced stop is dropped. *)
Lemma delete_container_result (env : Env) (name : string) (w : World)
    (t0 rc0 t rc : Z) (out0 err0 out err : string) :
  real_mode env ->
  let stop := [LXC_PATH env; "stop"; name; "--force"] in
  let del := [LXC_PATH env; "delete"; name] in
  backend env (events w) stop = Exited t0 rc0 out0 err0 ->
  backend env (events w ++ [Spawned stop]) del = Exited t rc out err ->
  delete_container env name w
    = Returns (if rc =? 0 then (true, "deleted") else (false, Str.or err out))
        (log_event (Spawned del) (log_event (Spawned stop) w)).
Proof.
  intros Hr stop del Hs Hd. unfold delete_container, bind.
  rewrite (run_lxc_cmd_exited _ _ _ _ _ _ _ _ Hr Hs).
  rewrite (run_lxc_cmd_exited env del _ (log_event (Spawned stop) w) t rc out err Hr)
    by exact Hd.
  destruct (rc =? 0); reflexivity.
Qed.

Lemma find_after_delete (vps_id : Z) (l : list VpsRow) :
  List.find (fun r => row_id r =? vps_id)
    (List.filter (fun r => negb (row_id r =? vps_id)) l) = None.
Proof.
  induction l as [|x l IH]; simpl; [reflexivity|].
  destruct (row_id x =? vps_id) eqn:Hx; simpl; [exact IH|].
  rewrite Hx. exact IH.
Qed.

(** The lines both delete flows share: the call of [delete_container],
    then the failure reply or the DELETE and the success reply. *)
Lemma delete_tail_outcome (env : Env) (vps_id : Z) (name : string) (w w1 : World)
    (failure_reply : string -> Reply) (success_reply : Reply) :
  users w1 = users w -> vps w1 = vps w ->
  delete_flow_outcome env vps_id name w w1
    (bind (delete_container env name)
       (fun r => let '(ok, msg) := r in
                 if negb ok then send (failure_reply msg)
                 else bind (delete_vps_record vps_id)
                        (fun _ => send success_reply)) w1)
    failure_reply success_reply.
Proof.
  intros Hu Hv. unfold delete_flow_outcome, bind.
  pose proof (adapter_delete_container env name w1) as Hp.
  destruct (delete_container env name w1) as [[[|] msg] w2 | e w2 | w2];
    simpl in *; destruct Hp as (Hu2 & Hv2 & _).
  - split; [congruence|]. split; [reflexivity|]. split; [congruence|].
    unfold get_vps_by_id. simpl. rewrite find_after_delete. reflexivity.
  - split; [congruence|]. split; [reflexivity | congruence].
  - split; congruence.
  - split; congruence.
Qed.

(** C4. For a delete request on an existing record, by [manage delete]
    from the owner or an admin, or by [delete-vps] from an admin naming
    the owner: the registry row is removed, and the success reply sent,
    exactly when [delete_container] returns [True]; when it returns
    [False] the failure reply carries its diagnostic and the table is as
    before; and in every case the ledger is as before. *)
Theorem delete_removes_record_iff_backend_success
    (env : Env) (ctx : Ctx) (vps_id : Z) (row : VpsRow) (w : World) :
  get_vps_by_id vps_id w = Returns (Some row) w ->
  let name := row_container_name row in
  (forall action,
     Str.lower action = "delete" ->
     row_user_id row = author_id ctx \/ is_admin_ctx env ctx = true ->
     delete_flow_outcome env vps_id name w (add_reply (Deleting name) w)
       (cmd_manage env ctx action vps_id w)
       FailedToDelete (VpsDeleted vps_id name)) /\
  (forall user reason,
     is_admin_ctx env ctx = true ->
     row_user_id row = user ->
     delete_flow_outcome env vps_id name w
       (add_reply (AdminDeleting name user reason) w)
       (cmd_delete_vps env ctx user vps_id reason w)
       AdminFailed (AdminDeleted name)).
Proof.
  intros Hrow name. split.
  - intros action Hact Hauth.
    assert (Hgate : negb (row_user_id row =? author_id ctx)
                    && negb (is_admin_ctx env ctx) = false).
    { destruct Hauth as [-> | ->].
      - rewrite Z.eqb_refl. reflexivity.
      - apply andb_false_r. }
    unfold cmd_manage. unfold bind at 1. rewrite Hrow, Hgate, Hact.
    change (String.eqb "delete" "delete") with true. cbv iota.
    unfold bind at 1. unfold send at 1.
    apply delete_tail_outcome; reflexivity.
  - intros user reason Hadmin Huser.
    unfold cmd_delete_vps. rewrite Hadmin.
    change (negb true) with false. cbv beta iota.
    unfold bind at 1. rewrite Hrow.
    apply Z.eqb_eq in Huser. rewrite Huser.
    change (negb true) with false. cbv beta iota.
    unfold bind at 1. unfold send at 1.
    apply delete_tail_outcome; reflexivity.
Qed.

Lemma delete_removes_record_iff_backend_success_witness :
  let env := host_env backend_delete_fails in
  let name := "user7-basic-240517093000" in
  (exists row, get_vps_by_id 1 world_with_vps = Returns (Some row) world_with_vps /\
               row_container_name row = name /\ row_user_id row = 7) /\
  delete_flow_outcome env 1 name world_with_vps
    (add_reply (Deleting name) world_with_vps)
    (cmd_manage env (member 7) "Delete" 1 world_with_vps)
    FailedToDelete (VpsDeleted 1 name).
Proof.
  split.
  - eexists. split; [vm_compute; reflexivity|]. split; reflexivity.
  - exact (proj1 (delete_removes_record_iff_backend_success
                    (host_env backend_delete_fails) (member 7) 1
                    (new_row (host_env backend_ok) 7 "user7-basic-240517093000"
                       "basic" 512 1 "intel" (world_with_credits 7 60))
                    world_with_vps eq_refl)
                 "Delete" eq_refl (or_introl eq_refl)).
Defined.

(** *** The charged create *)

(** [cmd_buywc] is its three pieces run in a row. *)
Lemma cmd_buywc_in_steps (env : Env) (ctx : Ctx) (plan arch : string) (w : World) :
  cmd_buywc env ctx plan arch w = buywc_in_steps env ctx plan arch w.
Proof.
  unfold cmd_buywc, buywc_in_steps, buywc_until_create, buywc_finish,
    buywc_call_create, buywc_from_create.
  destruct (PLANS env !! Str.lower plan) as [p|]; [|reflexivity].
  unfold bind. rewrite get_credits_returns.
  destruct (default 0 (users w !! author_id ctx) <? plan_price p);
    [reflexivity|].
  unfold read_clock, send, ret.
  destruct (create_container env _ _ _ _ _ _) as [[ok msg] w2 | e w2 | w2];
    reflexivity.
Qed.

(** [cmd_buywc] once the plan is known and the balance suffices. *)
Lemma buywc_main_path (env : Env) (ctx : Ctx) (plan arch : string) (p : Plan) (w : World) :
  PLANS env !! Str.lower plan = Some p ->
  plan_price p <= balance_of w (author_id ctx) ->
  cmd_buywc env ctx plan arch w =
  match buywc_create env ctx plan p w with
  | Returns r w2 =>
      buywc_from_create env ctx (Str.lower plan) (Str.lower arch)
        (buywc_name env ctx plan w) p r w2
  | Raises e w2 => Raises e w2
  | Pending w2 => Pending w2
  end.
Proof.
  intros Hp Hb. unfold cmd_buywc. rewrite Hp. unfold bind at 1.
  rewrite get_credits_returns. fold (balance_of w (author_id ctx)).
  apply Z.ltb_ge in Hb. rewrite Hb.
  unfold bind at 1. unfold read_clock. unfold bind at 1. unfold send at 1.
  unfold bind at 1.
  fold (buywc_name env ctx plan w). fold (buywc_world_at_create env ctx plan w).
  fold (buywc_create env ctx plan p w).
  destruct (buywc_create env ctx plan p w) as [[ok msg] w2 | e w2 | w2];
    reflexivity.
Qed.

(** Lines 220 to 222 for a plan whose numbers fit the columns, when the
    debit does not raise. *)
Lemma buywc_from_create_fits (env : Env) (ctx : Ctx) (plan arch name : string)
    (p : Plan) (msg : string) (done : bool) (w2 w3 : World) :
  plan_fits p = true ->
  remove_credits (author_id ctx) (plan_price p) w2 = Returns done w3 ->
  buywc_from_create env ctx plan arch name p (true, msg) w2
  = Returns tt
      (add_reply (ContainerCreated name (vps_seq w3 + 1) (plan_price p))
         (record_row env (new_row env (author_id ctx) name plan (plan_ram_mb p)
                            (plan_cpu p) arch w3) (tick w3))).
Proof.
  intros Hfit Hd. unfold buywc_from_create.
  change (negb true) with false. cbv beta iota.
  unfold bind at 1. rewrite Hd. unfold bind.
  rewrite (create_vps_record_fits env _ _ _ _ _ _ w3 Hfit). reflexivity.
Qed.


Lemma buywc_create_tables (env : Env) (ctx : Ctx) (plan : string) (p : Plan) (w : World) :
  let w2 := final_world (buywc_create env ctx plan p w) in
  users w2 = users w /\ vps w2 = vps w /\ vps_seq w2 = vps_seq w /\
  sent w2 = sent w ++ [CreatingContainer (buywc_name env ctx plan w) (Str.lower plan)].
Proof.
  destruct (adapter_create_container env (buywc_name env ctx plan w)
              "images:ubuntu/22.04" "default" (Some (plan_ram_mb p))
              (Some (plan_cpu p)) (buywc_world_at_create env ctx plan w))
    as (Hu & Hv & Hs & _ & Hr).
  fold (buywc_create env ctx plan p w) in *.
  simpl. rewrite Hu, Hv, Hs, Hr. repeat split.
Qed.





(** Scenarios A, B and C of the charged create, evaluated. *)
Example buywc_scenario_A :
  let w' := final_world (cmd_buywc (host_env backend_ok) (member 7) "basic" "intel"
                           (world_with_credits 7 100)) in
  balance_of w' 7 = 60 /\ length (vps w') = 1%nat.
Proof. vm_compute. split; reflexivity. Qed.

Example buywc_scenario_B :
  let w' := final_world (cmd_buywc (host_env backend_ok) (member 7) "basic" "intel"
                           (world_with_credits 7 30)) in
  balance_of w' 7 = 30 /\ vps w' = [] /\ sent w' = [NeedCredits 40 30].
Proof. vm_compute. repeat split; reflexivity. Qed.

Example buywc_scenario_C :
  let w' := final_world (cmd_buywc (host_env backend_launch_fails) (member 7) "basic"
                           "intel" (world_with_credits 7 100)) in
  balance_of w' 7 = 100 /\ vps w' = [] /\
  sent w' = [CreatingContainer "user7-basic-240517093000" "basic";
             FailedToCreate "Error: image not found"].
Proof. vm_compute. repeat split; reflexivity. Qed.

(** C2, as the code has it. When the requester has no ledger row (so
    that the debit returns [False]) and [create_container] has returned
    [True], [cmd_buywc] drops the result of the debit: for a plan whose
    memory and cores fit the columns of the registry it inserts the
    registry row, leaves the ledger as it was and sends the ordinary
    [created] reply; nothing reports the failed debit. *)
Theorem buywc_debit_result_ignored
    (env : Env) (ctx : Ctx) (plan arch : string) (p : Plan) (w w2 : World)
    (msg : string) :
  PLANS env !! Str.lower plan = Some p ->
  users w !! author_id ctx = None ->
  plan_price p <= 0 ->
  plan_fits p = true ->
  buywc_create env ctx plan p w = Returns (true, msg) w2 ->
  let u := author_id ctx in
  let name := buywc_name env ctx plan w in
  let row := new_row env u name (Str.lower plan) (plan_ram_mb p) (plan_cpu p)
               (Str.lower arch) w2 in
  remove_credits u (plan_price p) w2 = Returns false w2 /\
  cmd_buywc env ctx plan arch w
    = Returns tt (add_reply (ContainerCreated name (row_id row) (plan_price p))
                    (record_row env row (tick w2))) /\
  users (final_world (cmd_buywc env ctx plan arch w)) = users w /\
  vps (final_world (cmd_buywc env ctx plan arch w))
    = insert_at (scan_index env (vps w)) row (vps w).
Proof.
  intros Hp Hnone Hprice Hfit Hc u name row.
  pose proof (buywc_create_tables env ctx plan p w) as (Hu & Hv & _).
  rewrite Hc in Hu, Hv. simpl in Hu, Hv.
  assert (Hdebit : remove_credits u (plan_price p) w2 = Returns false w2).
  { unfold remove_credits. rewrite Hu. fold u in Hnone. rewrite Hnone. reflexivity. }
  assert (Hrun : cmd_buywc env ctx plan arch w
            = Returns tt (add_reply (ContainerCreated name (row_id row) (plan_price p))
                            (record_row env row (tick w2)))).
  { rewrite (buywc_main_path env ctx plan arch p w Hp).
    - rewrite Hc.
      exact (buywc_from_create_fits env ctx _ _ _ p msg _ _ _ Hfit Hdebit).
    - unfold balance_of. rewrite Hnone. simpl. exact Hprice. }
  split; [exact Hdebit|]. split; [exact Hrun|].
  rewrite Hrun. simpl. rewrite Hu, Hv. split; reflexivity.
Qed.

Lemma buywc_debit_result_ignored_witness :
  let env := host_env backend_ok in
  let name := "user7-free-240517093000" in
  exists w2 w',
    buywc_create env (member 7) "free" 
      {| plan_name := "Trial"; plan_ram_mb := 128; plan_cpu := 1;
         plan_disk_gb := 1; plan_price := 0 |} empty_world = Returns (true, "ok") w2 /\
    remove_credits 7 0 w2 = Returns false w2 /\
    cmd_buywc env (member 7) "free" "intel" empty_world = Returns tt w' /\
    users w' = ∅ /\ length (vps w') = 1%nat.
Proof.
  intros env name.
  pose (p := {| plan_name := "Trial"; plan_ram_mb := 128; plan_cpu := 1;
                plan_disk_gb := 1; plan_price := 0 |}).
  assert (Hc : exists w2, buywc_create env (member 7) "free" p empty_world
                          = Returns (true, "ok") w2).
  { eexists. vm_compute. reflexivity. }
  destruct Hc as [w2 Hc].
  assert (Hp : PLANS env !! Str.lower "free" = Some p) by (vm_compute; reflexivity).
  assert (Hn : users empty_world !! author_id (member 7) = None) by reflexivity.
  assert (Hz : plan_price p <= 0) by (simpl; lia).
  destruct (buywc_debit_result_ignored env (member 7) "free" "intel" p empty_world
              w2 "ok" Hp Hn Hz eq_refl Hc) as (Hd & Hrun & Hu & Hv).
  exists w2. eexists. split; [exact Hc|]. split; [exact Hd|].
  split; [exact Hrun|]. rewrite Hrun in Hu, Hv. split; [exact Hu|].
  exact (f_equal (@length VpsRow) Hv).
Defined.

(** C2, the claim refuted on a free plan. User 7 has no ledger row and
    buys the plan of price 0: the backend create succeeds, the debit
    returns [False], and the command ends normally with the same two
    replies as a paid purchase; the failed debit is reported nowhere. *)
Lemma buywc_debit_failure_is_silent_success :
  let env := host_env backend_ok in
  let name := "user7-free-240517093000" in
  exists w2 w',
    create_container env name "images:ubuntu/22.04" "default" (Some 128) (Some 1)
      (add_reply (CreatingContainer name "free") (tick empty_world))
      = Returns (true, "ok") w2 /\
    remove_credits 7 0 w2 = Returns false w2 /\
    cmd_buywc env (member 7) "free" "intel" empty_world = Returns tt w' /\
    sent w' = [CreatingContainer name "free"; ContainerCreated name 1 0] /\
    forallb is_success_reply (skipn 1 (sent w')) = true.
Proof.
  eexists. eexists.
  split; [vm_compute; reflexivity|].
  split; [vm_compute; reflexivity|].
  split; [vm_compute; reflexivity|].
  split; vm_compute; reflexivity.
Qed.

(* ================================================================== *)
(** * Further properties of the ledger                                  *)
(* ================================================================== *)

(** X1. [add_credits] with an amount of either sign, where the amount,
    the balance stored and their sum are inside the signed 64-bit range
    of the [credits] column: afterwards the user has a row, the balance
    reported is the one before plus the amount (a first credit starts
    from 0), and every other row is as before. *)
Theorem add_credits_adds (u amount : Z) (w : World) :
  fits_int64 amount = true ->
  fits_int64 (balance_of w u) = true ->
  fits_int64 (balance_of w u + amount) = true ->
  exists w',
    add_credits u amount w = Returns tt w' /\
    users w' !! u = Some (balance_of w u + amount) /\
    get_credits u w' = Returns (balance_of w u + amount) w' /\
    fits_int64 (balance_of w' u) = true /\
    (forall v, v <> u -> users w' !! v = users w !! v) /\
    vps w' = vps w /\ vps_seq w' = vps_seq w /\ events w' = events w.
Proof.
  intros _ _ Hsum.
  eexists. split; [reflexivity|].
  assert (Hrow : users (final_world (add_credits u amount w)) !! u
                 = Some (balance_of w u + amount)).
  { unfold balance_of. simpl. destruct (users w !! u) as [b|]; simpl;
      rewrite lookup_insert_eq; reflexivity. }
  split; [exact Hrow|]. split.
  - rewrite get_credits_returns. simpl in Hrow |- *. rewrite Hrow. reflexivity.
  - split.
    + unfold balance_of at 1. simpl in Hrow |- *. rewrite Hrow. exact Hsum.
    + split; [|repeat split].
      intros v Hv. simpl. destruct (users w !! u); simpl;
        rewrite lookup_insert_ne by auto; reflexivity.
Qed.

Lemma add_credits_adds_witness :
  fits_int64 (-50) = true /\
  fits_int64 (balance_of (world_with_credits 7 30) 7) = true /\
  fits_int64 (balance_of (world_with_credits 7 30) 7 + -50) = true /\
  exists w',
    add_credits 7 (-50) (world_with_credits 7 30) = Returns tt w' /\
    users w' !! 7 = Some (-20).
Proof.
  split; [reflexivity|]. split; [reflexivity|]. split; [reflexivity|].
  destruct (add_credits_adds 7 (-50) (world_with_credits 7 30)
              eq_refl eq_refl eq_refl) as (w' & Hrun & Hrow & _).
  exists w'. split; [exact Hrun | exact Hrow].
Defined.

(** X2. Two credits to one user compose, where every amount bound and
    every sum stored is inside the signed 64-bit range: crediting [a]
    and then [b] leaves the same world as one credit of [a + b]. *)
Theorem add_credits_twice (u a b : Z) (w : World) :
  fits_int64 a = true -> fits_int64 b = true -> fits_int64 (a + b) = true ->
  fits_int64 (balance_of w u) = true ->
  fits_int64 (balance_of w u + a) = true ->
  fits_int64 (balance_of w u + a + b) = true ->
  final_world (bind (add_credits u a) (fun _ => add_credits u b) w)
  = final_world (add_credits u (a + b) w).
Proof.
  intros _ _ _ _ _ _.
  unfold bind, add_credits, set_users. simpl.
  destruct (users w !! u) as [c|] eqn:Hu; simpl;
    rewrite lookup_insert_eq, insert_insert_eq; do 2 f_equal; lia.
Qed.

Lemma add_credits_twice_witness :
  let w := world_with_credits 7 30 in
  fits_int64 10 = true /\ fits_int64 (-25) = true /\ fits_int64 (10 + -25) = true /\
  fits_int64 (balance_of w 7) = true /\
  fits_int64 (balance_of w 7 + 10) = true /\
  fits_int64 (balance_of w 7 + 10 + -25) = true /\
  final_world (bind (add_credits 7 10) (fun _ => add_credits 7 (-25)) w)
  = final_world (add_credits 7 (10 + -25) w).
Proof.
  repeat (split; [reflexivity|]).
  exact (add_credits_twice 7 10 (-25) (world_with_credits 7 30)
           eq_refl eq_refl eq_refl eq_refl eq_refl eq_refl).
Defined.


Lemma ledger_op_frame (op : LedgerOp) (v : Z) (w : World) :
  op_user op <> v -> users (run_ledger_op op w) !! v = users w !! v.
Proof.
  intros Hne. destruct op as [u a | u a | u]; simpl in *.
  - destruct (users w !! u); simpl; rewrite lookup_insert_ne by auto; reflexivity.
  - unfold remove_credits. destruct (users w !! u) as [c|]; simpl; [|reflexivity].
    destruct (fits_int64 (Z.max 0 (c - a))); simpl; [|reflexivity].
    rewrite lookup_insert_ne by auto. reflexivity.
  - destruct (users w !! u); simpl; [|reflexivity].
    rewrite lookup_insert_ne by auto. reflexivity.
Qed.

(** X4. Ledger operations on other users never change a user's row:
    after any sequence of credits, debits and zero operations none of
    which names [v], the row and the balance of [v] are as before. *)
Theorem ledger_frame (ops : list LedgerOp) (v : Z) :
  forall w,
    Forall (fun op => op_user op <> v) ops ->
    users (run_ledger_ops ops w) !! v = users w !! v /\
    balance_of (run_ledger_ops ops w) v = balance_of w v.
Proof.
  induction ops as [|op ops IH]; intros w Hops; simpl; [split; reflexivity|].
  apply Forall_cons in Hops as [Hop Hops].
  destruct (IH (run_ledger_op op w) Hops) as [Hrow Hbal].
  unfold balance_of in *.
  rewrite Hrow, (ledger_op_frame op v w Hop). split; reflexivity.
Qed.

Lemma ledger_frame_witness :
  let ops := [Credit 1 10; Debit 2 3; Zero 1; Credit 2 8] in
  Forall (fun op => op_user op <> 7) ops /\
  balance_of (run_ledger_ops ops (world_with_credits 7 30)) 7 = 30.
Proof.
  assert (H : Forall (fun op => op_user op <> 7)
                [Credit 1 10; Debit 2 3; Zero 1; Credit 2 8]).
  { repeat constructor; simpl; lia. }
  split; [exact H|].
  exact (proj2 (ledger_frame _ 7 (world_with_credits 7 30) H)).
Defined.

(** X5. [cmd_adminc] by an admin adds the amount as it is given, also a
    negative one, where the amount, the balance stored and their sum are
    inside the signed 64-bit range of the [credits] column: the balance
    afterwards is the balance before plus the amount, which can be below
    0; no other row and no registry row changes, and the reply names the
    amount and the user. *)
Theorem adminc_adds_any_amount (env : Env) (ctx : Ctx) (user amount : Z) (w : World) :
  is_admin_ctx env ctx = true ->
  fits_int64 amount = true ->
  fits_int64 (balance_of w user) = true ->
  fits_int64 (balance_of w user + amount) = true ->
  exists w',
    cmd_adminc env ctx user amount w = Returns tt w' /\
    balance_of w' user = balance_of w user + amount /\
    (forall v, v <> user -> users w' !! v = users w !! v) /\
    vps w' = vps w /\ events w' = events w /\
    sent w' = sent w ++ [CreditsAdded amount user].
Proof.
  intros Hadmin _ _ _. unfold cmd_adminc. rewrite Hadmin.
  change (negb true) with false. cbv beta iota.
  unfold bind, add_credits, send.
  eexists. split; [reflexivity|]. unfold balance_of. simpl.
  destruct (users w !! user) as [b|]; simpl; rewrite lookup_insert_eq; simpl;
    (split; [lia|]); (split; [|repeat split]);
    intros v Hv; rewrite lookup_insert_ne by auto; reflexivity.
Qed.

Lemma adminc_adds_any_amount_witness :
  let w := world_with_credits 7 30 in
  let w' := final_world (cmd_adminc (host_env backend_ok) (admin 1) 7 (-50) w) in
  is_admin_ctx (host_env backend_ok) (admin 1) = true /\
  fits_int64 (-50) = true /\
  fits_int64 (balance_of w 7) = true /\
  fits_int64 (balance_of w 7 + -50) = true /\
  balance_of w' 7 = -20.
Proof.
  repeat (split; [reflexivity|]).
  destruct (adminc_adds_any_amount (host_env backend_ok) (admin 1) 7 (-50)
              (world_with_credits 7 30) eq_refl eq_refl eq_refl eq_refl)
    as (w' & Hrun & Hbal & _).
  rewrite Hrun. exact Hbal.
Defined.





(* ================================================================== *)
(** * Further properties of the registry                                *)
(* ================================================================== *)

Lemma find_app_none {A : Type} (f : A -> bool) (l1 l2 : list A) :
  List.find f l1 = None -> List.find f (l1 ++ l2) = List.find f l2.
Proof.
  induction l1 as [|x l1 IH]; simpl; [reflexivity|].
  destruct (f x); [discriminate | exact IH].
Qed.

Lemma find_app_some {A : Type} (f : A -> bool) (l1 l2 : list A) (x : A) :
  List.find f l1 = Some x -> List.find f (l1 ++ l2) = Some x.
Proof.
  induction l1 as [|y l1 IH]; simpl; [discriminate|].
  destruct (f y); [auto | exact IH].
Qed.

Lemma find_id_above (l : list VpsRow) (bound i : Z) :
  Forall (fun r => row_id r <= bound) l -> bound < i ->
  List.find (fun r => row_id r =? i) l = None.
Proof.
  induction 1 as [|x l Hx Hl IH]; intros Hi; simpl; [reflexivity|].
  destruct (row_id x =? i) eqn:E; [apply Z.eqb_eq in E; lia | auto].
Qed.

Lemma find_insert_at_other {A : Type} (f : A -> bool) (pos : nat) (r : A)
    (l : list A) :
  f r = false -> List.find f (insert_at pos r l) = List.find f l.
Proof.
  intros Hr. unfold insert_at.
  rewrite <- (firstn_skipn pos l) at 3.
  destruct (List.find f (firstn pos l)) as [x|] eqn:Hf.
  - rewrite (find_app_some f _ (r :: skipn pos l) x Hf).
    rewrite (find_app_some f _ (skipn pos l) x Hf). reflexivity.
  - rewrite !find_app_none by exact Hf. simpl. rewrite Hr. reflexivity.
Qed.

Lemma find_insert_at_new {A : Type} (f : A -> bool) (pos : nat) (r : A)
    (l : list A) :
  List.find f l = None -> f r = true -> List.find f (insert_at pos r l) = Some r.
Proof.
  intros Hl Hr. unfold insert_at.
  assert (Hf : List.find f (firstn pos l) = None).
  { destruct (List.find f (firstn pos l)) as [x|] eqn:Hf; [|reflexivity].
    rewrite <- (firstn_skipn pos l) in Hl.
    rewrite (find_app_some f _ _ x Hf) in Hl. discriminate. }
  rewrite find_app_none by exact Hf. simpl. rewrite Hr. reflexivity.
Qed.

(** X7. Insert and lookup round trip, for a memory and a number of cores
    inside the signed 64-bit range of their columns. In a registry built
    from the empty table by inserts and deletes, [create_vps_record]
    returns the id [vps_seq + 1]; looking that id up gives the row just
    written, with the given owner, name, plan, memory, cores and arch
    and the status [running]; and the lookup of every other id gives
    what it gave before. *)
Theorem create_then_lookup (env : Env) (ops : list RegistryOp)
    (u : Z) (n p : string) (r c : Z) (a : string) :
  fits_int64 r && fits_int64 c = true ->
  let w := run_registry_ops env ops empty_world in
  exists row w',
    create_vps_record env u n p r c a w = Returns (vps_seq w + 1) w' /\
    get_vps_by_id (vps_seq w + 1) w' = Returns (Some row) w' /\
    row_id row = vps_seq w + 1 /\ row_user_id row = u /\
    row_container_name row = n /\ row_plan row = p /\ row_ram_mb row = r /\
    row_cpu_cores row = c /\ row_arch row = a /\ row_status row = "running" /\
    (forall j v, j <> vps_seq w + 1 ->
       get_vps_by_id j w = Returns v w -> get_vps_by_id j w' = Returns v w').
Proof.
  intros Hfit w.
  destruct (registry_ids_ok_run env ops empty_world registry_ids_ok_empty)
    as [_ Hb]. fold w in Hb.
  exists (new_row env u n p r c a w). eexists.
  split; [apply create_vps_record_fits, Hfit|]. split.
  - unfold get_vps_by_id. simpl. f_equal.
    apply find_insert_at_new.
    + apply (find_id_above _ (vps_seq w)); [exact Hb | lia].
    + simpl. apply Z.eqb_refl.
  - repeat (split; [reflexivity|]).
    intros j v Hj. unfold get_vps_by_id. simpl. intros [= <-]. f_equal.
    apply find_insert_at_other. simpl. apply Z.eqb_neq. lia.
Qed.

Lemma create_then_lookup_witness :
  let env := host_env backend_ok in
  let ops := [Insert 7 "a" "basic" 512 1 "intel"; Delete 1] in
  let w := run_registry_ops env ops empty_world in
  fits_int64 1024 && fits_int64 2 = true /\
  exists row w',
    create_vps_record env 8 "b" "pro" 1024 2 "amd" w = Returns (vps_seq w + 1) w' /\
    get_vps_by_id (vps_seq w + 1) w' = Returns (Some row) w' /\
    row_user_id row = 8 /\ row_ram_mb row = 1024 /\ row_cpu_cores row = 2.
Proof.
  split; [reflexivity|].
  destruct (create_then_lookup (host_env backend_ok)
              [Insert 7 "a" "basic" 512 1 "intel"; Delete 1]
              8 "b" "pro" 1024 2 "amd" eq_refl)
    as (row & w' & Hrun & Hget & _ & Hu & _ & _ & Hr & Hc & _).
  exists row, w'. split; [exact Hrun|]. split; [exact Hget|].
  split; [exact Hu|]. split; [exact Hr | exact Hc].
Defined.

Lemma registry_op_keeps_old_rows (env : Env) (op : RegistryOp) (w : World) :
  registry_ids_ok w ->
  vps_seq w <= vps_seq (run_registry_op env op w) /\
  (forall r, In r (vps (run_registry_op env op w)) ->
             row_id r <= vps_seq w -> In r (vps w)).
Proof.
  intros [_ Hb]. destruct op as [u n p r c a | i].
  - destruct (run_insert_cases env u n p r c a w)
      as [[Hv Hs] | (row & Hid & _ & Hv & Hs)]; rewrite Hv, Hs.
    + split; [lia | auto].
    + split; [lia|]. intros x Hx Hle. apply in_insert_at in Hx as [-> | Hx];
        [lia | exact Hx].
  - simpl. split; [lia|]. intros x Hx _.
    apply List.filter_In in Hx as [Hx _]. exact Hx.
Qed.

Lemma registry_ops_keep_old_rows (env : Env) (ops : list RegistryOp) :
  forall w, registry_ids_ok w ->
    vps_seq w <= vps_seq (run_registry_ops env ops w) /\
    (forall r, In r (vps (run_registry_ops env ops w)) ->
               row_id r <= vps_seq w -> In r (vps w)).
Proof.
  induction ops as [|op ops IH]; intros w Hw; simpl; [split; [lia | auto]|].
  destruct (registry_op_keeps_old_rows env op w Hw) as [Hseq Hold].
  destruct (IH _ (registry_ids_ok_step env op w Hw)) as [Hseq' Hold'].
  split; [lia|]. intros r Hr Hid. apply Hold; [|exact Hid].
  apply Hold'; [exact Hr | lia].
Qed.

(** X8. Ids are unique and never given twice. In a registry built from
    the empty table by inserts and deletes no two rows share an id and
    no id exceeds the AUTOINCREMENT counter; and whatever inserts and
    deletes follow, the counter does not go down and a row whose id is
    at most the earlier counter is a row that was already there, so the
    id of a deleted row is never assigned to a new one. *)
Theorem ids_unique_never_reused (env : Env) (ops later : list RegistryOp) :
  let w := run_registry_ops env ops empty_world in
  let w2 := run_registry_ops env later w in
  NoDup (map row_id (vps w2)) /\
  Forall (fun r => row_id r <= vps_seq w2) (vps w2) /\
  vps_seq w <= vps_seq w2 /\
  (forall r, In r (vps w2) -> row_id r <= vps_seq w -> In r (vps w)).
Proof.
  intros w w2.
  assert (Hw : registry_ids_ok w)
    by apply registry_ids_ok_run, registry_ids_ok_empty.
  destruct (registry_ids_ok_run env later w Hw) as [Hs Hb].
  destruct (registry_ops_keep_old_rows env later w Hw) as [Hseq Hold].
  split; [exact Hs|]. split; [exact Hb|].
  split; [exact Hseq | exact Hold].
Qed.

Lemma filter_all {A : Type} (f : A -> bool) (l : list A) :
  (forall x, In x l -> f x = true) -> List.filter f l = l.
Proof.
  induction l as [|x l IH]; simpl; intros H; [reflexivity|].
  rewrite (H x) by auto. f_equal. apply IH. intros y Hy. apply H. auto.
Qed.

Lemma find_filter_other (i j : Z) (l : list VpsRow) :
  j <> i ->
  List.find (fun r => row_id r =? j)
    (List.filter (fun r => negb (row_id r =? i)) l)
  = List.find (fun r => row_id r =? j) l.
Proof.
  intros Hne. induction l as [|x l IH]; simpl; [reflexivity|].
  destruct (row_id x =? i) eqn:Ei; simpl.
  - apply Z.eqb_eq in Ei.
    destruct (row_id x =? j) eqn:Ej; [apply Z.eqb_eq in Ej; lia | exact IH].
  - destruct (row_id x =? j); [reflexivity | exact IH].
Qed.

(** X9. [delete_vps_record] removes the row of the given id and nothing
    else: afterwards the id is not found, every other id is found as
    before, and the ledger and the counter are as before; deleting an id
    that is not in the table changes nothing at all, and a second delete
    of the same id changes nothing more. *)
Theorem delete_vps_record_effect (i : Z) (w : World) :
  let w' := final_world (delete_vps_record i w) in
  get_vps_by_id i w' = Returns None w' /\
  (forall j, j <> i ->
     List.find (fun r => row_id r =? j) (vps w')
     = List.find (fun r => row_id r =? j) (vps w)) /\
  users w' = users w /\ vps_seq w' = vps_seq w /\
  (get_vps_by_id i w = Returns None w -> w' = w) /\
  final_world (delete_vps_record i w') = w'.
Proof.
  intros w'. subst w'. simpl.
  split; [unfold get_vps_by_id; simpl; rewrite find_after_delete; reflexivity|].
  split; [intros j Hj; apply find_filter_other, Hj|].
  split; [reflexivity|]. split; [reflexivity|]. split.
  - unfold get_vps_by_id. intros [= Hf]. unfold delete_rows.
    rewrite filter_all.
    + destruct w; reflexivity.
    + intros x Hx. destruct (row_id x =? i) eqn:E; [|reflexivity].
      pose proof (find_none _ _ Hf x Hx) as Hn. simpl in Hn. congruence.
  - unfold delete_rows. simpl. f_equal. apply filter_all.
    intros x Hx. apply List.filter_In in Hx as [_ Hx]. exact Hx.
Qed.

(* ================================================================== *)
(** * Further properties of the backend adapter                         *)
(* ================================================================== *)

(** X10. Outside simulation mode the result of [delete_container] is
    decided by the delete run alone: the exit status of the forced stop
    is dropped, a delete run that exits with 0 gives [True] and the text
    [deleted], any other status gives [False] with the error text of the
    delete run, or its output when the error text is empty; the two
    processes run are the stop and then the delete. *)
Theorem delete_container_ignores_stop (env : Env) (name : string) (w : World)
    (t0 rc0 t rc : Z) (out0 err0 out err : string) :
  real_mode env ->
  let stop := [LXC_PATH env; "stop"; name; "--force"] in
  let del := [LXC_PATH env; "delete"; name] in
  backend env (events w) stop = Exited t0 rc0 out0 err0 ->
  backend env (events w ++ [Spawned stop]) del = Exited t rc out err ->
  delete_container env name w
    = Returns (if rc =? 0 then (true, "deleted") else (false, Str.or err out))
        (log_event (Spawned del) (log_event (Spawned stop) w)).
Proof.
  intros Hr stop del Hs Hd. unfold delete_container, bind.
  rewrite (run_lxc_cmd_exited _ _ _ _ _ _ _ _ Hr Hs).
  rewrite (run_lxc_cmd_exited env del _ (log_event (Spawned stop) w) t rc out err Hr)
    by exact Hd.
  destruct (rc =? 0); reflexivity.
Qed.

Lemma host_env_real (b : list Event -> list string -> ProcOutcome) :
  real_mode (host_env b).
Proof. eexists. split; reflexivity. Qed.

Lemma delete_container_ignores_stop_witness :
  delete_container (host_env backend_stop_fails) "c1" empty_world
    = Returns (true, "deleted")
        (log_event (Spawned ["/usr/bin/lxc"; "delete"; "c1"])
           (log_event (Spawned ["/usr/bin/lxc"; "stop"; "c1"; "--force"])
              empty_world)).
Proof.
  exact (delete_container_ignores_stop (host_env backend_stop_fails) "c1" empty_world
           1 1 3 0 EmptyString "Error: not running" EmptyString EmptyString
           (host_env_real backend_stop_fails) eq_refl eq_refl).
Defined.

(** X11. [action_container] with an action other than start, stop,
    restart and info returns [False] with the text [invalid action] and
    runs nothing, in any mode.  With one of the four, outside simulation
    mode, it runs the binary once with the action and the name; exit
    status 0 gives [True] with the output (or [OK] when that is empty),
    another status gives [False] with the error text, or the output when
    that is empty. *)
Theorem action_container_result (env : Env) (name action : string) (w : World) :
  (is_lifecycle_action action = false ->
     action_container env name action w = Returns (false, "invalid action") w) /\
  (is_lifecycle_action action = true ->
     real_mode env ->
     forall t rc out err,
       backend env (events w) [LXC_PATH env; action; name] = Exited t rc out err ->
       action_container env name action w
         = Returns (if rc =? 0 then (true, Str.or out "OK")
                    else (false, Str.or err out))
             (log_event (Spawned [LXC_PATH env; action; name]) w)).
Proof.
  split.
  - intros Hv. unfold action_container. rewrite Hv. reflexivity.
  - intros Hv Hr t rc out err Hb. unfold action_container. rewrite Hv.
    change (negb true) with false. cbv beta iota. unfold bind.
    assert (Hrun : (if String.eqb action "info"
                    then run_lxc_cmd env [LXC_PATH env; "info"; name] default_timeout
                    else run_lxc_cmd env [LXC_PATH env; action; name] default_timeout) w
                   = Returns (rc, out, err)
                       (log_event (Spawned [LXC_PATH env; action; name]) w)).
    { destruct (String.eqb_spec action "info") as [-> | _];
        exact (run_lxc_cmd_exited env _ _ w t rc out err Hr Hb). }
    rewrite Hrun. destruct (rc =? 0); reflexivity.
Qed.

Lemma action_container_result_witness :
  action_container (host_env backend_ok) "c1" "reboot" empty_world
    = Returns (false, "invalid action") empty_world /\
  action_container (host_env backend_launch_fails) "c1" "restart" empty_world
    = Returns (false, "Error: image not found")
        (log_event (Spawned ["/usr/bin/lxc"; "restart"; "c1"]) empty_world).
Proof.
  split.
  - exact (proj1 (action_container_result (host_env backend_ok) "c1" "reboot"
                    empty_world) eq_refl).
  - exact (proj2 (action_container_result (host_env backend_launch_fails) "c1"
                    "restart" empty_world) eq_refl
                 (host_env_real backend_launch_fails) 1 1 EmptyString
                 "Error: image not found" eq_refl).
Defined.

(** X12. The limits of [create_container] are optional: outside
    simulation mode, after a launch that exits with 0, a call without
    [ram_mb] and without [cpu_cores] runs no further process; a call
    with [ram_mb] alone runs the memory limit only, also for a value of 0;
    a call with [cpu_cores] alone runs the CPU limit only. *)
Theorem create_container_optional_limits
    (env : Env) (name image profiles : string) (w : World) (t : Z) (out err : string) :
  real_mode env ->
  backend env (events w) (launch_argv env name image profiles) = Exited t 0 out err ->
  let launch := Spawned (launch_argv env name image profiles) in
  create_container env name image profiles None None w
    = Returns (true, Str.or out "created") (log_event launch w) /\
  (forall ram_mb t1 rc1 out1 err1,
     backend env (events w ++ [launch]) (memory_limit_argv env name ram_mb)
       = Exited t1 rc1 out1 err1 ->
     create_container env name image profiles (Some ram_mb) None w
       = Returns (true, Str.or out "created")
           (log_event (Spawned (memory_limit_argv env name ram_mb))
              (log_event launch w))) /\
  (forall cpu_cores t1 rc1 out1 err1,
     backend env (events w ++ [launch]) (cpu_limit_argv env name cpu_cores)
       = Exited t1 rc1 out1 err1 ->
     create_container env name image profiles None (Some cpu_cores) w
       = Returns (true, Str.or out "created")
           (log_event (Spawned (cpu_limit_argv env name cpu_cores))
              (log_event launch w))).
Proof.
  intros Hr Hl launch.
  assert (Hlaunch : run_lxc_cmd env (launch_argv env name image profiles)
                      default_timeout w = Returns (0, out, err) (log_event launch w))
    by (apply (run_lxc_cmd_exited env _ _ w t 0 out err Hr Hl)).
  unfold create_container, bind.
  fold (launch_argv env name image profiles). rewrite Hlaunch.
  change (negb (0 =? 0)) with false. cbv beta iota.
  split; [reflexivity|]. split.
  - intros ram_mb t1 rc1 out1 err1 Hm.
    fold (memory_limit_argv env name ram_mb).
    rewrite (run_lxc_cmd_exited env _ _ (log_event launch w) t1 rc1 out1 err1 Hr)
      by exact Hm.
    reflexivity.
  - intros cpu_cores t1 rc1 out1 err1 Hc. unfold ret. cbv beta iota.
    fold (cpu_limit_argv env name cpu_cores).
    rewrite (run_lxc_cmd_exited env _ _ (log_event launch w) t1 rc1 out1 err1 Hr)
      by exact Hc.
    reflexivity.
Qed.

Lemma create_container_optional_limits_witness :
  create_container (host_env backend_limits_fail) "c1" EmptyString EmptyString
      (Some 0) None empty_world
    = Returns (true, "Creating the instance")
        (log_event (Spawned ["/usr/bin/lxc"; "config"; "set"; "c1"; "limits.memory"; "0"])
        (log_event (Spawned ["/usr/bin/lxc"; "launch"; "images:ubuntu/22.04"; "c1";
                             "-p"; "default"]) empty_world)).
Proof.
  exact (proj1 (proj2 (create_container_optional_limits
                         (host_env backend_limits_fail) "c1" EmptyString EmptyString
                         empty_world 5 "Creating the instance" EmptyString
                         (host_env_real backend_limits_fail) eq_refl))
               0 1 1 EmptyString "Error: unknown key" eq_refl).
Defined.

Lemma run_lxc_cmd_fake (env : Env) (args : list string) (timeout : Z) (w : World) :
  simulation_mode env = true ->
  run_lxc_cmd env args timeout w
    = Returns (0, fake_output args, EmptyString) (log_event Slept w).
Proof.
  intros Hs. unfold run_lxc_cmd, bind.
  rewrite (simulation_mode_fake env w Hs). reflexivity.
Qed.

Lemma create_container_fake (env : Env) (name image profiles : string)
    (ram_mb cpu_cores : option Z) (w : World) :
  simulation_mode env = true ->
  create_container env name image profiles ram_mb cpu_cores w
    = Returns (true, fake_output (launch_argv env name image profiles))
        (sleeps (create_calls ram_mb cpu_cores) w).
Proof.
  intros Hs. unfold create_container, bind.
  fold (launch_argv env name image profiles).
  rewrite (run_lxc_cmd_fake env _ _ w Hs).
  change (negb (0 =? 0)) with false. cbv beta iota.
  destruct ram_mb as [ram|], cpu_cores as [cpu|];
    rewrite ?(run_lxc_cmd_fake env _ _ (log_event Slept w) Hs);
    unfold ret; cbv beta iota;
    rewrite ?(run_lxc_cmd_fake env _ _ (log_event Slept (log_event Slept w)) Hs);
    rewrite ?(run_lxc_cmd_fake env _ _ (log_event Slept w) Hs);
    reflexivity.
Qed.

Lemma delete_container_fake (env : Env) (name : string) (w : World) :
  simulation_mode env = true ->
  delete_container env name w = Returns (true, "deleted") (sleeps 2 w).
Proof.
  intros Hs. unfold delete_container, bind.
  rewrite (run_lxc_cmd_fake env _ _ w Hs).
  rewrite (run_lxc_cmd_fake env _ _ (log_event Slept w) Hs). reflexivity.
Qed.

(** X13. In simulation mode the three adapter operations cannot fail
    and run no process.  [create_container] returns [True] with the
    simulated text of the launch after one sleep per call it makes (the
    launch and one per limit given); [delete_container] returns [True]
    and [deleted] after two sleeps; [action_container] with one of the
    four actions returns [True] with the simulated text after one
    sleep. *)
Theorem adapter_simulated (env : Env) (name : string) (w : World) :
  simulation_mode env = true ->
  (forall image profiles ram_mb cpu_cores,
     create_container env name image profiles ram_mb cpu_cores w
       = Returns (true, fake_output (launch_argv env name image profiles))
           (sleeps (create_calls ram_mb cpu_cores) w)) /\
  delete_container env name w = Returns (true, "deleted") (sleeps 2 w) /\
  (forall action,
     is_lifecycle_action action = true ->
     action_container env name action w
       = Returns (true, fake_output [LXC_PATH env; action; name]) (sleeps 1 w)).
Proof.
  intros Hs. split; [|split].
  - intros. apply create_container_fake, Hs.
  - apply delete_container_fake, Hs.
  - intros action Hv. unfold action_container. rewrite Hv.
    change (negb true) with false. cbv beta iota. unfold bind.
    destruct (String.eqb_spec action "info") as [-> | _];
      rewrite (run_lxc_cmd_fake env _ _ w Hs); reflexivity.
Qed.

Lemma adapter_simulated_witness :
  simulation_mode wsl_env = true /\
  create_container wsl_env "c1" EmptyString EmptyString (Some 512) None empty_world
    = Returns (true, "(fake) /usr/bin/lxc launch images:ubuntu/22.04 c1 -p default")
        (log_event Slept (log_event Slept empty_world)).
Proof.
  split; [reflexivity|].
  exact (proj1 (adapter_simulated wsl_env "c1" empty_world eq_refl)
               EmptyString EmptyString (Some 512) None).
Defined.

(** X14. The kernel text is read only when the first test of
    [run_lxc_cmd] fails.  With the binary absent and the simulation
    switch on, the call is simulated whether or not /proc/version can
    be read; with the binary present or the switch off, a host whose
    /proc/version cannot be read makes every call raise the error of
    [open], before any process is run and before any sleep. *)
Theorem kernel_text_read_lazily (env : Env) (args : list string) (timeout : Z) (w : World) :
  (lxc_path_exists env = false -> FAKE_IF_NO_LXC env = true ->
     run_lxc_cmd env args timeout w
       = Returns (0, fake_output args, EmptyString) (log_event Slept w)) /\
  (proc_version env = None ->
     lxc_path_exists env = true \/ FAKE_IF_NO_LXC env = false ->
     run_lxc_cmd env args timeout w = Raises (OSError "/proc/version") w).
Proof.
  split.
  - intros He Hf. apply run_lxc_cmd_fake. unfold simulation_mode.
    rewrite He, Hf. reflexivity.
  - intros Hv Hor. unfold run_lxc_cmd, bind, fake_mode. rewrite Hv.
    destruct Hor as [-> | ->]; [reflexivity|].
    rewrite andb_false_r. reflexivity.
Qed.

Lemma kernel_text_read_lazily_witness :
  run_lxc_cmd (no_procfs_env false true) ["/usr/bin/lxc"; "info"; "c1"] 300 empty_world
    = Returns (0, "(fake) /usr/bin/lxc info c1", EmptyString)
        (log_event Slept empty_world) /\
  run_lxc_cmd (no_procfs_env true true) ["/usr/bin/lxc"; "info"; "c1"] 300 empty_world
    = Raises (OSError "/proc/version") empty_world.
Proof.
  split.
  - exact (proj1 (kernel_text_read_lazily (no_procfs_env false true)
                    ["/usr/bin/lxc"; "info"; "c1"] 300 empty_world) eq_refl eq_refl).
  - exact (proj2 (kernel_text_read_lazily (no_procfs_env true true)
                    ["/usr/bin/lxc"; "info"; "c1"] 300 empty_world) eq_refl
                 (or_introl eq_refl)).
Defined.

(* ================================================================== *)
(** * Further properties of the commands                                *)
(* ================================================================== *)

Lemma adapter_action_container (env : Env) (name action : string) :
  adapter_call (action_container env name action).
Proof.
  unfold action_container.
  destruct (negb (is_lifecycle_action action)); [apply adapter_ret|].
  apply adapter_bind.
  - destruct (String.eqb action "info"); apply adapter_run_lxc_cmd.
  - intros [[rc out] err]. destruct (negb (rc =? 0)); apply adapter_ret.
Qed.

(** [cmd_manage] past the lookup and the ownership test, for an action
    other than delete. *)
Lemma manage_lifecycle_path (env : Env) (ctx : Ctx) (action : string) (vps_id : Z)
    (row : VpsRow) (w : World) :
  get_vps_by_id vps_id w = Returns (Some row) w ->
  row_user_id row = author_id ctx \/ is_admin_ctx env ctx = true ->
  Str.lower action <> "delete" ->
  let name := row_container_name row in
  let act := Str.lower action in
  cmd_manage env ctx action vps_id w =
  if negb (is_lifecycle_action act) then Returns tt (add_reply InvalidAction w)
  else match action_container env name act w with
       | Returns (true, msg) w2 =>
           if String.eqb act "info"
           then Returns tt (add_reply (InfoFor name (truncate_1900 msg)) w2)
           else Returns tt (add_reply (ActionExecuted act name) w2)
       | Returns (false, msg) w2 => Returns tt (add_reply (ActionFailed msg) w2)
       | Raises e w2 => Raises e w2
       | Pending w2 => Pending w2
       end.
Proof.
  intros Hrow Hauth Hact name act.
  assert (Hgate : negb (row_user_id row =? author_id ctx)
                  && negb (is_admin_ctx env ctx) = false).
  { destruct Hauth as [-> | ->]; [rewrite Z.eqb_refl; reflexivity | apply andb_false_r]. }
  unfold cmd_manage. unfold bind at 1. rewrite Hrow, Hgate.
  fold act. fold name.
  destruct (String.eqb_spec act "delete") as [E | _]; [contradiction|].
  destruct (negb (is_lifecycle_action act)); [reflexivity|].
  unfold bind.
  destruct (action_container env name act w) as [[[|] msg] w2 | e w2 | w2];
    try reflexivity.
  change (negb true) with false. cbv beta iota.
  destruct (String.eqb act "info"); reflexivity.
Qed.

(** X15. A lifecycle request never touches the ledger or the registry:
    for every requester, id and action whose lower-case form is not
    [delete], whatever the backend does, both tables, the AUTOINCREMENT
    counter and the clock are after [cmd_manage] as they were before. *)
Theorem manage_lifecycle_leaves_tables (env : Env) (ctx : Ctx) (action : string)
    (vps_id : Z) (w : World) :
  Str.lower action <> "delete" ->
  let w' := final_world (cmd_manage env ctx action vps_id w) in
  same_tables w w' /\ clock_reads w' = clock_reads w.
Proof.
  intros Hact w'. subst w'.
  destruct (List.find (fun r => row_id r =? vps_id) (vps w)) as [row|] eqn:Hfind.
  2:{ assert (E : cmd_manage env ctx action vps_id w
                  = Returns tt (add_reply VpsNotFound w))
        by (unfold cmd_manage, bind, get_vps_by_id; rewrite Hfind; reflexivity).
      rewrite E. repeat split. }
  assert (Hrow : get_vps_by_id vps_id w = Returns (Some row) w)
    by (unfold get_vps_by_id; rewrite Hfind; reflexivity).
  destruct (negb (row_user_id row =? author_id ctx) && negb (is_admin_ctx env ctx))
    eqn:Hgate.
  { assert (E : cmd_manage env ctx action vps_id w
                = Returns tt (add_reply NotYourVps w))
      by (unfold cmd_manage, bind; rewrite Hrow, Hgate; reflexivity).
    rewrite E. repeat split. }
  assert (Hauth : row_user_id row = author_id ctx \/ is_admin_ctx env ctx = true).
  { apply andb_false_iff in Hgate as [H | H]; apply negb_false_iff in H;
      [left; apply Z.eqb_eq, H | right; exact H]. }
  rewrite (manage_lifecycle_path env ctx action vps_id row w Hrow Hauth Hact).
  destruct (negb (is_lifecycle_action (Str.lower action))); [repeat split|].
  pose proof (adapter_action_container env (row_container_name row)
                (Str.lower action) w) as (Hu & Hv & Hs & Hc & _).
  destruct (action_container env (row_container_name row) (Str.lower action) w)
    as [[[|] msg] w2 | e w2 | w2]; simpl in *.
  - destruct (String.eqb (Str.lower action) "info"); simpl; repeat split; assumption.
  - repeat split; assumption.
  - repeat split; assumption.
  - repeat split; assumption.
Qed.

Lemma manage_lifecycle_leaves_tables_witness :
  let w' := final_world (cmd_manage (host_env backend_launch_fails) (member 7)
                           "Restart" 1 world_with_vps) in
  Str.lower "Restart" <> "delete" /\
  same_tables world_with_vps w' /\ clock_reads w' = clock_reads world_with_vps.
Proof.
  assert (H : Str.lower "Restart" <> "delete") by discriminate.
  split; [exact H|].
  exact (manage_lifecycle_leaves_tables (host_env backend_launch_fails) (member 7)
           "Restart" 1 world_with_vps H).
Defined.








(** X18. The admin gate. A requester who has neither the administrator
    permission nor the admin role gets the reply [not authorized] from
    every admin command (create, delete-vps, adminc, adminrc, editplans,
    giveplan) and nothing else happens: no table changes, no process is
    run, the clock is not read, and the catalog stays as it is. *)
Theorem admin_commands_refuse_non_admin (env : Env) (ctx : Ctx) (w : World) :
  is_admin_ctx env ctx = false ->
  let refused := Returns tt (add_reply NotAuthorized w) in
  (forall user ram cpu, cmd_create env ctx user ram cpu w = refused) /\
  (forall user vps_id reason, cmd_delete_vps env ctx user vps_id reason w = refused) /\
  (forall user amount, cmd_adminc env ctx user amount w = refused) /\
  (forall user amount, cmd_adminrc env ctx user amount w = refused) /\
  (forall user plan, cmd_giveplan env ctx user plan w = refused) /\
  (forall plan ram cpu disk,
     cmd_editplans env ctx plan ram cpu disk w = (env, refused)).
Proof.
  intros Hadm refused. subst refused.
  repeat split; intros;
    unfold cmd_create, cmd_delete_vps, cmd_adminc, cmd_adminrc, cmd_giveplan,
           cmd_editplans;
    rewrite Hadm; reflexivity.
Qed.

Lemma admin_commands_refuse_non_admin_witness :
  is_admin_ctx (host_env backend_ok) (member 7) = false /\
  cmd_adminc (host_env backend_ok) (member 7) 7 1000 empty_world
    = Returns tt (add_reply NotAuthorized empty_world).
Proof.
  split; [reflexivity|].
  exact (proj1 (proj2 (proj2 (admin_commands_refuse_non_admin (host_env backend_ok)
                                (member 7) empty_world eq_refl))) 7 1000).
Defined.

(** The lines both uncharged creates share: the call of
    [create_container], then the failure reply or the INSERT and the
    success reply. *)
Lemma uncharged_create_tail (env : Env) (user : Z) (name plan : string) (ram cpu : Z)
    (image profiles : string) (success_reply : Reply) (w : World) :
  uncharged_create_outcome env user name plan ram cpu image profiles success_reply w
    (bind (create_container env name image profiles (Some ram) (Some cpu))
       (fun r => let '(ok, msg) := r in
                 if negb ok then send (AdminFailed msg)
                 else bind (create_vps_record env user name plan ram cpu "intel")
                        (fun _ => send success_reply))
       (add_reply (AdminCreating name user ram cpu) (tick w))).
Proof.
  unfold uncharged_create_outcome, bind.
  pose proof (adapter_create_container env name image profiles (Some ram) (Some cpu)
                (add_reply (AdminCreating name user ram cpu) (tick w)))
    as (Hu & Hv & _).
  destruct (create_container env name image profiles (Some ram) (Some cpu)
              (add_reply (AdminCreating name user ram cpu) (tick w)))
    as [[[|] msg] w2 | e w2 | w2]; simpl in Hu, Hv.
  - change (negb true) with false. cbv beta iota.
    destruct (fits_int64 ram && fits_int64 cpu) eqn:Hfit.
    + rewrite (create_vps_record_fits env _ _ _ _ _ _ w2 Hfit). simpl.
      split; [exact Hu|]. split; [reflexivity|]. rewrite Hv. reflexivity.
    + rewrite (create_vps_record_overflow env _ _ _ _ _ _ w2 Hfit). simpl.
      split; [exact Hu|]. split; [reflexivity | exact Hv].
  - simpl. split; [exact Hu|]. split; [reflexivity | exact Hv].
  - simpl. split; assumption.
  - simpl. split; assumption.
Qed.

(** X19. The admin's create is never charged and records what it
    created. For an admin, [cmd_create] leaves the ledger as it was in
    every case; when [create_container] returns [True] and the memory
    and cores given are inside the signed 64-bit range of their columns,
    the registry gets exactly one more row, owned by the named user (not
    by the admin), with the plan [custom], the arch [intel] and the
    memory and cores given; when [create_container] returns [True] and
    one of them is outside that range, the INSERT raises
    [OverflowError], the command ends with it and the registry is as
    before, though the container exists; when [create_container]
    returns [False], raises or never completes, the registry is as
    before. *)
Theorem create_uncharged (env : Env) (ctx : Ctx) (user ram cpu : Z) (w : World) :
  is_admin_ctx env ctx = true ->
  uncharged_create_outcome env user
    (container_name_for user "custom" (utcnow env (clock_reads w)))
    "custom" ram cpu "images:ubuntu/22.04" "default"
    (AdminCreated (container_name_for user "custom" (utcnow env (clock_reads w))) user)
    w (cmd_create env ctx user ram cpu w).
Proof.
  intros Hadm. unfold cmd_create. rewrite Hadm.
  change (negb true) with false. cbv beta iota.
  unfold bind at 1. unfold read_clock. unfold bind at 1. unfold send at 1.
  apply uncharged_create_tail.
Qed.

Lemma create_uncharged_witness :
  is_admin_ctx (host_env backend_ok) (admin 1) = true /\
  uncharged_create_outcome (host_env backend_ok) 7 "user7-custom-240517093000"
    "custom" 256 2 "images:ubuntu/22.04" "default"
    (AdminCreated "user7-custom-240517093000" 7)
    empty_world (cmd_create (host_env backend_ok) (admin 1) 7 256 2 empty_world).
Proof.
  split; [reflexivity|].
  exact (create_uncharged (host_env backend_ok) (admin 1) 7 256 2 empty_world eq_refl).
Defined.

(** X20. [cmd_giveplan] by an admin gives a plan away: an unknown plan
    key (after lower-casing) gives the reply [plan not found] and
    nothing else; for a known plan the ledger is left as it was whatever
    the plan's price and the user's balance, and the registry gets one
    more row, for the named user, with the plan's key, memory and cores,
    exactly when [create_container] returns [True] and the plan's memory
    and cores are inside the signed 64-bit range of their columns; for a
    plan outside that range the INSERT raises [OverflowError] after the
    container was created and the registry is as before. *)
Theorem giveplan_uncharged (env : Env) (ctx : Ctx) (user : Z) (plan_name : string)
    (w : World) :
  is_admin_ctx env ctx = true ->
  match PLANS env !! Str.lower plan_name with
  | None =>
      cmd_giveplan env ctx user plan_name w = Returns tt (add_reply PlanNotFound w)
  | Some p =>
      let name := container_name_for user (Str.lower plan_name)
                    (utcnow env (clock_reads w)) in
      uncharged_create_outcome env user name (Str.lower plan_name)
        (plan_ram_mb p) (plan_cpu p) EmptyString EmptyString
        (PlanGiven (Str.lower plan_name) user name)
        w (cmd_giveplan env ctx user plan_name w)
  end.
Proof.
  intros Hadm. unfold cmd_giveplan. rewrite Hadm.
  change (negb true) with false. cbv beta iota.
  destruct (PLANS env !! Str.lower plan_name) as [p|]; [|reflexivity].
  unfold bind at 1. unfold read_clock. unfold bind at 1. unfold send at 1.
  apply uncharged_create_tail.
Qed.

Lemma giveplan_uncharged_witness :
  is_admin_ctx (host_env backend_ok) (admin 1) = true /\
  cmd_giveplan (host_env backend_ok) (admin 1) 7 "Gold" empty_world
    = Returns tt (add_reply PlanNotFound empty_world) /\
  users (final_world (cmd_giveplan (host_env backend_ok) (admin 1) 7 "BASIC"
                        (world_with_credits 7 5)))
    = users (world_with_credits 7 5).
Proof.
  split; [reflexivity|]. split.
  - exact (giveplan_uncharged (host_env backend_ok) (admin 1) 7 "Gold" empty_world
             eq_refl).
  - exact (proj1 (giveplan_uncharged (host_env backend_ok) (admin 1) 7 "BASIC"
                    (world_with_credits 7 5) eq_refl)).
Defined.

Lemma lower_ascii_idempotent (c : ascii) :
  Str.lower_ascii (Str.lower_ascii c) = Str.lower_ascii c.
Proof. destruct c as [[|] [|] [|] [|] [|] [|] [|] [|]]; reflexivity. Qed.

Lemma lower_idempotent (s : string) : Str.lower (Str.lower s) = Str.lower s.
Proof.
  induction s as [|c s IH]; simpl; [reflexivity|].
  rewrite lower_ascii_idempotent, IH. reflexivity.
Qed.

(** X21. Plan keys, arch tags and actions are case-insensitive: each of
    [cmd_buywc], [cmd_manage], [cmd_giveplan] and [cmd_editplans] does
    with an argument exactly what it does with the argument in lower
    case. *)
Theorem commands_ignore_case (env : Env) (ctx : Ctx) (w : World) :
  (forall plan arch,
     cmd_buywc env ctx plan arch w
     = cmd_buywc env ctx (Str.lower plan) (Str.lower arch) w) /\
  (forall action vps_id,
     cmd_manage env ctx action vps_id w
     = cmd_manage env ctx (Str.lower action) vps_id w) /\
  (forall user plan,
     cmd_giveplan env ctx user plan w = cmd_giveplan env ctx user (Str.lower plan) w) /\
  (forall plan ram cpu disk,
     cmd_editplans env ctx plan ram cpu disk w
     = cmd_editplans env ctx (Str.lower plan) ram cpu disk w).
Proof.
  repeat split; intros;
    unfold cmd_buywc, cmd_manage, cmd_giveplan, cmd_editplans;
    rewrite !lower_idempotent; reflexivity.
Qed.

(** *** Container names *)

Lemma forallb_app (f : ascii -> bool) (a b : string) :
  Str.forallb f (Str.app a b) = Str.forallb f a && Str.forallb f b.
Proof.
  induction a as [|c a IH]; [reflexivity|].
  rewrite app_cons. simpl. rewrite IH. apply andb_assoc.
Qed.

Lemma forallb_filter (f : ascii -> bool) (s : string) :
  Str.forallb f (Str.filter f s) = true.
Proof.
  induction s as [|c s IH]; simpl; [reflexivity|].
  destruct (f c) eqn:E; simpl; [rewrite E|]; exact IH.
Qed.

Lemma filter_kept (f : ascii -> bool) (s : string) :
  Str.forallb f s = true -> Str.filter f s = s.
Proof.
  induction s as [|c s IH]; simpl; [reflexivity|].
  rewrite andb_true_iff. intros [Hc Hs]. rewrite Hc, IH; auto.
Qed.

Lemma forallb_impl (f g : ascii -> bool) (s : string) :
  (forall c, f c = true -> g c = true) ->
  Str.forallb f s = true -> Str.forallb g s = true.
Proof.
  intros Hfg. induction s as [|c s IH]; simpl; [reflexivity|].
  rewrite !andb_true_iff. intros [Hc Hs]. auto.
Qed.

Lemma uint_chars_kept (d : Decimal.uint) :
  Str.forallb name_char_kept (NilEmpty.string_of_uint d) = true.
Proof. induction d; simpl; auto. Qed.

Lemma of_Z_chars_kept (n : Z) : Str.forallb name_char_kept (Str.of_Z n) = true.
Proof.
  unfold Str.of_Z, NilZero.string_of_int.
  destruct (Z.to_int n) as [d | d]; unfold NilZero.string_of_uint;
    destruct d; simpl; auto using uint_chars_kept.
Qed.

Lemma zero_pad_chars_kept (n width : nat) (s : string) :
  Str.forallb name_char_kept s = true ->
  Str.forallb name_char_kept (zero_pad n width s) = true.
Proof.
  revert s. induction n as [|n IH]; intros s Hs; simpl; [exact Hs|].
  destruct (String.length s <? width)%nat; [|exact Hs].
  apply IH. simpl. exact Hs.
Qed.

Lemma digits_chars_kept (w : nat) (n : Z) :
  Str.forallb name_char_kept (digits w n) = true.
Proof. apply zero_pad_chars_kept, of_Z_chars_kept. Qed.

Lemma strftime_chars_kept (d : DateTime) :
  Str.forallb name_char_kept (strftime_ymdHMS d) = true.
Proof.
  unfold strftime_ymdHMS. rewrite !forallb_app, !digits_chars_kept. reflexivity.
Qed.

Lemma name_char_is_shell_safe (c : ascii) :
  name_char_kept c = true -> shlex_safe_char c = true.
Proof. destruct c as [[|] [|] [|] [|] [|] [|] [|] [|]]; vm_compute; auto. Qed.

(** X22. Every container name the commands build is made of lower-case
    letters, digits and hyphens only and starts with [user], whatever the
    user id, the plan text and the clock: so [shlex.quote] leaves it as
    it is and a second pass of [NAME_RE] changes nothing. *)
Theorem container_name_is_safe (user_id : Z) (plan : string) (now : DateTime) :
  let name := container_name_for user_id plan now in
  Str.forallb name_char_kept name = true /\
  Str.startswith "user" name = true /\
  shlex_quote name = name /\
  NAME_RE_sub_empty name = name.
Proof.
  intros name.
  assert (Hk : Str.forallb name_char_kept name = true).
  { unfold name, container_name_for, NAME_RE_sub_empty.
    rewrite !forallb_app, forallb_filter, strftime_chars_kept. reflexivity. }
  assert (Hs : Str.startswith "user" name = true) by reflexivity.
  split; [exact Hk|]. split; [exact Hs|]. split.
  - unfold shlex_quote.
    rewrite (forallb_impl _ _ _ name_char_is_shell_safe Hk).
    destruct name; [discriminate | reflexivity].
  - apply filter_kept, Hk.
Qed.

(** X23. [cmd_editplans] by an admin changes the memory, cores and disk
    of one plan and nothing else: for a known key (after lower-casing)
    the entry keeps its display name and its price, every other entry of
    the catalog and every other setting stay as they are, and the world
    only gains the reply; for an unknown key the catalog is returned
    unchanged with the reply [plan not found]. *)
Theorem editplans_effect (env : Env) (ctx : Ctx) (plan : string)
    (ram cpu disk : Z) (w : World) :
  is_admin_ctx env ctx = true ->
  let key := Str.lower plan in
  let env' := fst (cmd_editplans env ctx plan ram cpu disk w) in
  let o := snd (cmd_editplans env ctx plan ram cpu disk w) in
  match PLANS env !! key with
  | None => env' = env /\ o = Returns tt (add_reply PlanNotFound w)
  | Some p =>
      o = Returns tt (add_reply (PlanUpdated key ram cpu disk) w) /\
      PLANS env' !! key
        = Some {| plan_name := plan_name p; plan_ram_mb := ram; plan_cpu := cpu;
                  plan_disk_gb := disk; plan_price := plan_price p |} /\
      (forall k, k <> key -> PLANS env' !! k = PLANS env !! k) /\
      with_plans (PLANS env) env' = with_plans (PLANS env) env /\
      (forall c, is_admin_ctx env' c = is_admin_ctx env c)
  end.
Proof.
  intros Hadm key env' o. subst env' o. unfold cmd_editplans. rewrite Hadm.
  change (negb true) with false. cbv beta iota. fold key.
  destruct (PLANS env !! key) as [p|] eqn:Hp; simpl; [|split; reflexivity].
  split; [reflexivity|]. split; [apply lookup_insert_eq|].
  split; [intros k Hk; apply lookup_insert_ne; auto|].
  split; reflexivity.
Qed.

Lemma editplans_effect_witness :
  let env := host_env backend_ok in
  let env' := fst (cmd_editplans env (admin 1) "Basic" 2048 4 20 empty_world) in
  is_admin_ctx env (admin 1) = true /\
  PLANS env' !! "basic"
    = Some {| plan_name := "Basic"; plan_ram_mb := 2048; plan_cpu := 4;
              plan_disk_gb := 20; plan_price := 40 |} /\
  PLANS env' !! "free" = PLANS env !! "free".
Proof.
  pose proof (editplans_effect (host_env backend_ok) (admin 1) "Basic" 2048 4 20
                empty_world eq_refl) as H.
  change (PLANS (host_env backend_ok) !! Str.lower "Basic")
    with (Some {| plan_name := "Basic"; plan_ram_mb := 512; plan_cpu := 1;
                  plan_disk_gb := 5; plan_price := 40 |}) in H.
  destruct H as (_ & Hkey & Hother & _).
  split; [reflexivity|]. split; [exact Hkey|].
  apply Hother. discriminate.
Defined.



(** X25. The read-only commands only reply. [cmd_credits] reports the
    balance [get_credits] gives, 0 for a user without a row, and creates
    no row; [cmd_myvps] replies [no VPS] exactly when the requester owns
    no row and otherwise lists, in table order, one line per row the
    requester owns and no line of any other user's row. *)
Theorem read_only_commands (ctx : Ctx) (w : World) :
  let u := author_id ctx in
  let mine := List.filter (fun r => row_user_id r =? u) (vps w) in
  cmd_credits ctx w = Returns tt (add_reply (CreditsBalance u (balance_of w u)) w) /\
  cmd_myvps ctx w
    = Returns tt (add_reply (match mine with
                             | [] => NoVps
                             | _ :: _ => YourVps (map vps_line mine)
                             end) w) /\
  (forall r, In r mine <-> In r (vps w) /\ row_user_id r = u) /\
  (mine = [] <-> forall r, In r (vps w) -> row_user_id r <> u).
Proof.
  intros u mine. split; [|split; [|split]].
  - unfold cmd_credits, bind. rewrite get_credits_returns. reflexivity.
  - unfold cmd_myvps, bind, get_user_vps. fold u. fold mine.
    destruct mine; reflexivity.
  - intros r. unfold mine. rewrite List.filter_In, Z.eqb_eq. reflexivity.
  - unfold mine. split.
    + intros He r Hr Hu.
      assert (Hin : In r (List.filter (fun r => row_user_id r =? u) (vps w)))
        by (apply List.filter_In; split; [exact Hr | apply Z.eqb_eq, Hu]).
      rewrite He in Hin. destruct Hin.
    + intros Hall. induction (vps w) as [|x l IH]; simpl; [reflexivity|].
      destruct (row_user_id x =? u) eqn:E.
      * apply Z.eqb_eq in E. exfalso. apply (Hall x); [left; reflexivity | exact E].
      * apply IH. intros r Hr. apply Hall. right. exact Hr.
Qed.

Lemma fits_int64_between (a b x : Z) :
  fits_int64 a = true -> fits_int64 b = true -> a <= x <= b ->
  fits_int64 x = true.
Proof.
  unfold fits_int64. rewrite !andb_true_iff, !Z.leb_le. lia.
Qed.

Lemma filter_insert_at_removed {A : Type} (f : A -> bool) (pos : nat) (r : A)
    (l : list A) :
  f r = false -> (forall x, In x l -> f x = true) ->
  List.filter f (insert_at pos r l) = l.
Proof.
  intros Hr Hl. unfold insert_at. rewrite List.filter_app. simpl. rewrite Hr.
  rewrite <- List.filter_app, firstn_skipn. apply filter_all, Hl.
Qed.

(** X26. Buying and then deleting, end to end in simulation mode. With a
    known plan of price between 0 and the requester's balance, a balance
    and a plan whose memory and cores are inside the signed 64-bit range
    of their columns, in a registry none of whose ids exceeds the
    AUTOINCREMENT counter, [cmd_buywc] followed by the requester's
    [manage delete] of the new id brings the registry back to its rows
    of before, while the price stays charged (no refund) and the counter
    stays advanced, so the id is not given again; the four replies are
    creating, created, deleting, deleted. *)
Theorem buy_then_delete_simulated (env : Env) (ctx : Ctx) (plan arch : string)
    (p : Plan) (w : World) :
  simulation_mode env = true ->
  PLANS env !! Str.lower plan = Some p ->
  0 <= plan_price p ->
  plan_price p <= balance_of w (author_id ctx) ->
  fits_int64 (balance_of w (author_id ctx)) = true ->
  plan_fits p = true ->
  Forall (fun r => row_id r <= vps_seq w) (vps w) ->
  let u := author_id ctx in
  let id := vps_seq w + 1 in
  let name := buywc_name env ctx plan w in
  let w1 := final_world (cmd_buywc env ctx plan arch w) in
  let w2 := final_world (cmd_manage env ctx "delete" id w1) in
  (exists row, vps w1 = insert_at (scan_index env (vps w)) row (vps w) /\
               row_id row = id /\ row_user_id row = u) /\
  balance_of w1 u = balance_of w u - plan_price p /\
  vps w2 = vps w /\
  balance_of w2 u = balance_of w u - plan_price p /\
  vps_seq w2 = id /\
  sent w2 = sent w ++ [CreatingContainer name (Str.lower plan);
                       ContainerCreated name id (plan_price p);
                       Deleting name; VpsDeleted id name].
Proof.
  intros Hs Hp H0 Hle Hbfit Hfit Hb u id name w1 w2.
  pose (w0 := sleeps 3 (buywc_world_at_create env ctx plan w)).
  assert (Hd : exists done w3,
             remove_credits u (plan_price p) w0 = Returns done w3 /\
             vps w3 = vps w /\ vps_seq w3 = vps_seq w /\
             sent w3 = sent w ++ [CreatingContainer name (Str.lower plan)] /\
             balance_of w3 u = balance_of w u - plan_price p).
  { unfold remove_credits, balance_of in *. fold u in Hle, Hbfit.
    change (users w0) with (users w).
    destruct (users w !! u) as [b|] eqn:Hu; simpl in Hle, Hbfit.
    - rewrite (fits_int64_between 0 b) by (auto; lia).
      eexists. eexists. split; [reflexivity|]. simpl.
      rewrite lookup_insert_eq. simpl. repeat split. lia.
    - eexists. eexists. split; [reflexivity|]. simpl. change (users w0) with (users w).
      rewrite Hu. simpl. repeat split. lia. }
  destruct Hd as (done & w3 & Hd & Hv3 & Hq3 & Hs3 & Hb3).
  pose (row := new_row env u name (Str.lower plan) (plan_ram_mb p) (plan_cpu p)
                 (Str.lower arch) w3).
  pose (W1 := add_reply (ContainerCreated name (row_id row) (plan_price p))
                (record_row env row (tick w3))).
  assert (Hbuy : cmd_buywc env ctx plan arch w = Returns tt W1).
  { rewrite (buywc_main_path env ctx plan arch p w Hp Hle). unfold buywc_create.
    rewrite (create_container_fake env _ _ _ _ _ _ Hs).
    exact (buywc_from_create_fits env ctx _ _ _ p _ _ _ _ Hfit Hd). }
  assert (Hid : row_id row = id) by (unfold row, id; simpl; rewrite Hq3; reflexivity).
  assert (Hown : row_user_id row = author_id ctx) by reflexivity.
  assert (Hname : row_container_name row = name) by reflexivity.
  assert (HvW : vps W1 = insert_at (scan_index env (vps w)) row (vps w))
    by (simpl; rewrite Hv3; reflexivity).
  clearbody row. clear w0 Hd.
  assert (Hget : get_vps_by_id id W1 = Returns (Some row) W1).
  { unfold get_vps_by_id. rewrite HvW. f_equal.
    apply find_insert_at_new.
    - apply (find_id_above _ (vps_seq w)); [exact Hb | unfold id; lia].
    - rewrite Hid. apply Z.eqb_refl. }
  assert (Hman : cmd_manage env ctx "delete" id W1
                 = Returns tt (add_reply (VpsDeleted id name)
                                 (delete_rows id
                                    (sleeps 2 (add_reply (Deleting name) W1))))).
  { unfold cmd_manage. unfold bind at 1. rewrite Hget, Hown, Hname, Z.eqb_refl.
    change (negb true && negb (is_admin_ctx env ctx)) with false. cbv beta iota.
    change (String.eqb (Str.lower "delete") "delete") with true. cbv beta iota.
    unfold bind at 1. unfold send at 1. unfold bind at 1.
    rewrite (delete_container_fake env _ _ Hs). reflexivity. }
  subst w2 w1. rewrite Hbuy. simpl final_world. rewrite Hman. simpl final_world.
  split; [exists row; split; [exact HvW | split; [exact Hid | exact Hown]]|].
  split; [exact Hb3|]. split.
  - match goal with
    | |- vps ?X = _ =>
        change (vps X) with (List.filter (fun r => negb (row_id r =? id)) (vps W1))
    end.
    rewrite HvW. apply filter_insert_at_removed.
    + rewrite Hid, Z.eqb_refl. reflexivity.
    + intros x Hx. rewrite Forall_forall in Hb.
      apply list_elem_of_In in Hx. specialize (Hb _ Hx).
      apply negb_true_iff, Z.eqb_neq. unfold id. lia.
  - split; [exact Hb3|]. split; [simpl; exact Hid|].
    simpl. rewrite Hs3, Hid, <- !app_assoc. reflexivity.
Qed.

Lemma buy_then_delete_simulated_witness :
  let w := world_with_credits 7 100 in
  let w1 := final_world (cmd_buywc wsl_env (member 7) "basic" "intel" w) in
  let w2 := final_world (cmd_manage wsl_env (member 7) "delete" 1 w1) in
  simulation_mode wsl_env = true /\
  fits_int64 (balance_of w 7) = true /\
  Forall (fun r => row_id r <= vps_seq w) (vps w) /\
  vps w2 = [] /\ balance_of w2 7 = 60 /\ vps_seq w2 = 1.
Proof.
  assert (Hb : Forall (fun r => row_id r <= vps_seq (world_with_credits 7 100))
                 (vps (world_with_credits 7 100)))
    by constructor.
  assert (H0 : 0 <= 40) by lia.
  assert (Hle : 40 <= balance_of (world_with_credits 7 100) (author_id (member 7)))
    by (vm_compute; discriminate).
  pose proof (buy_then_delete_simulated wsl_env (member 7) "basic" "intel"
                {| plan_name := "Basic"; plan_ram_mb := 512; plan_cpu := 1;
                   plan_disk_gb := 5; plan_price := 40 |}
                (world_with_credits 7 100) eq_refl eq_refl H0 Hle eq_refl eq_refl Hb)
    as (_ & _ & Hv & Hbal & Hseq & _).
  split; [reflexivity|]. split; [reflexivity|]. split; [exact Hb|].
  split; [exact Hv|]. split; [exact Hbal | exact Hseq].
Defined.

Lemma to_int_not_nil (n : Z) :
  Z.to_int n <> Decimal.Pos Decimal.Nil /\ Z.to_int n <> Decimal.Neg Decimal.Nil.
Proof.
  assert (Hfix : Z.to_int n = Decimal.norm (Z.to_int n)).
  { rewrite <- DecimalZ.to_of, DecimalZ.of_to. reflexivity. }
  split; intros E; rewrite E in Hfix; discriminate.
Qed.

(** [str] of an integer reads back as that integer, so it is injective. *)
Lemma of_Z_inj (n m : Z) : Str.of_Z n = Str.of_Z m -> n = m.
Proof.
  unfold Str.of_Z. intros E. apply DecimalZ.to_int_inj.
  destruct (to_int_not_nil n) as [Hn1 Hn2], (to_int_not_nil m) as [Hm1 Hm2].
  pose proof (NilZero.isi _ Hn1 Hn2) as Hn.
  pose proof (NilZero.isi _ Hm1 Hm2) as Hm.
  rewrite E in Hn. congruence.
Qed.

Lemma lower_app (a b : string) :
  Str.lower (Str.app a b) = Str.app (Str.lower a) (Str.lower b).
Proof.
  induction a as [|c a IH]; [reflexivity|].
  rewrite app_cons. simpl. rewrite IH. reflexivity.
Qed.

Lemma filter_app_str (f : ascii -> bool) (a b : string) :
  Str.filter f (Str.app a b) = Str.app (Str.filter f a) (Str.filter f b).
Proof.
  induction a as [|c a IH]; [reflexivity|].
  rewrite app_cons. simpl. rewrite IH. destruct (f c); reflexivity.
Qed.

Lemma lower_ascii_kept (c : ascii) :
  name_char_kept c = true -> Str.lower_ascii c = c.
Proof. destruct c as [[|] [|] [|] [|] [|] [|] [|] [|]]; vm_compute; auto; discriminate. Qed.

Lemma lower_kept (s : string) :
  Str.forallb name_char_kept s = true -> Str.lower s = s.
Proof.
  induction s as [|c s IH]; simpl; [reflexivity|].
  rewrite andb_true_iff. intros [Hc Hs]. rewrite lower_ascii_kept, IH; auto.
Qed.

Lemma length_app_str (a b : string) :
  String.length (Str.app a b) = (String.length a + String.length b)%nat.
Proof.
  induction a as [|c a IH]; [reflexivity|].
  rewrite app_cons. simpl. rewrite IH. reflexivity.
Qed.

Lemma app_inv_tail_str (a b r : string) : Str.app a r = Str.app b r -> a = b.
Proof.
  revert b. induction a as [|c a IH]; intros [|d b] E.
  - reflexivity.
  - apply (f_equal String.length) in E.
    rewrite app_empty_l, app_cons in E. simpl in E.
    rewrite length_app_str in E. lia.
  - apply (f_equal String.length) in E.
    rewrite app_empty_l, app_cons in E. simpl in E.
    rewrite length_app_str in E. lia.
  - rewrite !app_cons in E. injection E as -> E. f_equal. apply IH, E.
Qed.

Lemma app_inv_head_str (a x y : string) : Str.app a x = Str.app a y -> x = y.
Proof.
  induction a as [|c a IH]; [auto|].
  rewrite !app_cons. intros [= E]. apply IH, E.
Qed.

(** The container name, with the part for the user laid bare. *)
Lemma container_name_split (user_id : Z) (plan : string) (now : DateTime) :
  container_name_for user_id plan now
  = Str.app "user"
      (Str.app (Str.of_Z user_id)
         (Str.app (NAME_RE_sub_empty (Str.lower (Str.app "-" plan)))
            (Str.app "-" (strftime_ymdHMS now)))).
Proof.
  unfold container_name_for, NAME_RE_sub_empty.
  rewrite !lower_app, !filter_app_str.
  rewrite (lower_kept _ (of_Z_chars_kept user_id)).
  rewrite (filter_kept _ _ (of_Z_chars_kept user_id)).
  rewrite !app_assoc_str. reflexivity.
Qed.

(** X27. Two different users never get the same container name: for the
    same plan and the same reading of the clock, the names built for two
    different user ids differ. *)
Theorem container_names_differ_by_user (u1 u2 : Z) (plan : string) (now : DateTime) :
  u1 <> u2 ->
  container_name_for u1 plan now <> container_name_for u2 plan now.
Proof.
  intros Hne E. apply Hne, of_Z_inj.
  rewrite !container_name_split in E.
  apply app_inv_head_str, app_inv_tail_str in E. exact E.
Qed.

Lemma container_names_differ_by_user_witness :
  container_name_for 7 "basic" (sample_clock 0)
  <> container_name_for 71 "basic" (sample_clock 0).
Proof.
  apply (container_names_differ_by_user 7 71 "basic" (sample_clock 0)). lia.
Defined.

Lemma two_digit_in (n : Z) : 0 <= n < 100 -> In n two_digit_numbers.
Proof.
  intros Hn. unfold two_digit_numbers. apply in_map_iff.
  exists (Z.to_nat n). split; [lia|]. apply in_seq. lia.
Qed.

Lemma digits2_table :
  forallb (fun i =>
    (String.length (digits 2 i) =? 2)%nat &&
    forallb (fun j => implb (String.eqb (digits 2 i) (digits 2 j)) (i =? j))
      two_digit_numbers) two_digit_numbers = true.
Proof. vm_compute. reflexivity. Qed.

Lemma digits2_length (n : Z) : 0 <= n < 100 -> String.length (digits 2 n) = 2%nat.
Proof.
  intros Hn. pose proof digits2_table as H. rewrite forallb_forall in H.
  specialize (H n (two_digit_in n Hn)). apply andb_true_iff in H as [H _].
  apply Nat.eqb_eq, H.
Qed.

Lemma digits2_inj (n m : Z) :
  0 <= n < 100 -> 0 <= m < 100 -> digits 2 n = digits 2 m -> n = m.
Proof.
  intros Hn Hm E. pose proof digits2_table as H. rewrite forallb_forall in H.
  specialize (H n (two_digit_in n Hn)). apply andb_true_iff in H as [_ H].
  rewrite forallb_forall in H. specialize (H m (two_digit_in m Hm)).
  rewrite E, String.eqb_refl in H. simpl in H. apply Z.eqb_eq, H.
Qed.

Lemma app_split_str (a b x y : string) :
  String.length a = String.length b ->
  Str.app a x = Str.app b y -> a = b /\ x = y.
Proof.
  revert b. induction a as [|c a IH]; intros [|d b] Hl E; simpl in Hl;
    try discriminate.
  - split; [reflexivity | exact E].
  - rewrite !app_cons in E. injection E as -> E.
    destruct (IH b) as [-> ->]; [lia | exact E | split; reflexivity].
Qed.

Lemma strftime_inj (d1 d2 : DateTime) :
  two_digit_fields d1 -> two_digit_fields d2 ->
  strftime_ymdHMS d1 = strftime_ymdHMS d2 ->
  dt_year d1 mod 100 = dt_year d2 mod 100 /\ dt_month d1 = dt_month d2 /\
  dt_day d1 = dt_day d2 /\ dt_hour d1 = dt_hour d2 /\
  dt_minute d1 = dt_minute d2 /\ dt_second d1 = dt_second d2.
Proof.
  intros (Hm1 & Hd1 & Hh1 & Hi1 & Hs1) (Hm2 & Hd2 & Hh2 & Hi2 & Hs2).
  assert (Hy1 : 0 <= dt_year d1 mod 100 < 100) by (apply Z.mod_pos_bound; lia).
  assert (Hy2 : 0 <= dt_year d2 mod 100 < 100) by (apply Z.mod_pos_bound; lia).
  unfold strftime_ymdHMS. intros E.
  apply app_split_str in E as [Ey E]; [|rewrite !digits2_length; auto].
  apply app_split_str in E as [Em E]; [|rewrite !digits2_length; auto].
  apply app_split_str in E as [Ed E]; [|rewrite !digits2_length; auto].
  apply app_split_str in E as [Eh E]; [|rewrite !digits2_length; auto].
  apply app_split_str in E as [Ei Es]; [|rewrite !digits2_length; auto].
  repeat split; apply digits2_inj; assumption.
Qed.

(** X28. The suffix separates requests made in different seconds: for
    one user and one plan, two readings of the clock whose month, day,
    hour, minute and second are two-digit numbers give the same
    container name only when they agree on the year modulo 100 and on
    the month, day, hour, minute and second.  So two requests in
    different seconds of one century get different names, and nothing
    finer than the second tells two names apart. *)
Theorem container_names_differ_by_second (user_id : Z) (plan : string)
    (d1 d2 : DateTime) :
  two_digit_fields d1 -> two_digit_fields d2 ->
  (container_name_for user_id plan d1 = container_name_for user_id plan d2 <->
   dt_year d1 mod 100 = dt_year d2 mod 100 /\ dt_month d1 = dt_month d2 /\
   dt_day d1 = dt_day d2 /\ dt_hour d1 = dt_hour d2 /\
   dt_minute d1 = dt_minute d2 /\ dt_second d1 = dt_second d2).
Proof.
  intros H1 H2. split.
  - intros E. apply strftime_inj; [exact H1 | exact H2|].
    unfold container_name_for in E.
    apply app_inv_head_str, app_inv_head_str in E. exact E.
  - intros (Ey & Em & Ed & Eh & Ei & Es).
    unfold container_name_for, strftime_ymdHMS.
    rewrite Ey, Em, Ed, Eh, Ei, Es. reflexivity.
Qed.

Lemma container_names_differ_by_second_witness :
  two_digit_fields (sample_clock 0) /\ two_digit_fields (sample_clock 1) /\
  container_name_for 7 "basic" (sample_clock 0)
  <> container_name_for 7 "basic" (sample_clock 1).
Proof.
  assert (H0 : two_digit_fields (sample_clock 0)) by (repeat split; simpl; lia).
  assert (H1 : two_digit_fields (sample_clock 1)) by (repeat split; simpl; lia).
  split; [exact H0|]. split; [exact H1|].
  intros E.
  apply (proj1 (container_names_differ_by_second 7 "basic" (sample_clock 0)
                  (sample_clock 1) H0 H1)) in E.
  destruct E as (_ & _ & _ & _ & _ & Es). discriminate Es.
Defined.

(** X29. The backend adapter never reads or writes the database. Whatever
    the backend does (exit with any status, fail to start, never exit)
    and in either mode, [create_container], [delete_container] and
    [action_container] leave the ledger, the registry, the AUTOINCREMENT
    counter, the clock and the replies exactly as they found them; only
    the record of processes run and sleeps taken can differ. *)
Theorem adapter_leaves_database (env : Env) (name : string) (w : World) :
  (forall image profiles ram_mb cpu_cores,
     only_events_differ w
       (final_world (create_container env name image profiles ram_mb cpu_cores w))) /\
  only_events_differ w (final_world (delete_container env name w)) /\
  (forall action,
     only_events_differ w (final_world (action_container env name action w))).
Proof.
  split; [|split].
  - intros. apply adapter_create_container.
  - apply adapter_delete_container.
  - intros. apply adapter_action_container.
Qed.
